(** * OctoPrint manager: container lifecycle over a record store

    A shallow embedding of [utils/docker.go] and of the HTTP handlers of the
    two revisions of [main.go], together with the properties of the port
    allocator, of container creation, of the start-up reconciliation pass and
    of the delete, restart and rename handlers.

    The program talks to three collaborators: the SQLite table [containers],
    the host filesystem and the Docker daemon.  Each of them is a component
    of [World]; every call the program issues is appended to [trace] with
    its outcome, and an [Env] decides, call by call, whether the
    collaborator fails for a reason outside the modelled state. *)

From stdpp Require Import gmap strings list fin_maps pretty.

Local Open Scope Z_scope.
Local Open Scope string_scope.
Local Open Scope list_scope.

(** ** Go's [int] (64-bit two's complement) *)

Module GoInt.

Definition min_int : Z := - 2 ^ 63.
Definition max_int : Z := 2 ^ 63 - 1.

(** The value an [int] variable holds after an arithmetic result [z]. *)
Definition wrap (z : Z) : Z := (z + 2 ^ 63) `mod` 2 ^ 64 - 2 ^ 63.

Definition add (a b : Z) : Z := wrap (a + b).

Definition in_range (z : Z) : Prop := min_int <= z <= max_int.

End GoInt.

(** ** Data model *)

(** A row of [containers (id TEXT PRIMARY KEY, device TEXT NOT NULL,
    port INTEGER NOT NULL, name TEXT)]. *)
Record Row := mkRow {
  row_id : string;
  row_device : string;
  row_port : Z;
  row_name : option string
}.

(** What [createOctoPrintContainer] hands to [ContainerCreate]:
    [container.Config] and [container.HostConfig] side by side. *)
Record Config := mkConfig {
  Image : string;
  ExposedPort : string;
  HostPort : string;
  MountSource : string;
  MountTarget : string;
  PathOnHost : string;
  PathInContainer : string;
  CgroupPermissions : string;
  RestartPolicy : string
}.

(** A container held by the Docker daemon. *)
Record Container := mkContainer {
  config : Config;
  Running : bool
}.

(** The calls the program issues to its collaborators. *)
Inductive Call :=
| SqlMaxPort                                        (* SELECT MAX(port) FROM containers *)
| SqlInsert (id device : string) (port : Z)         (* INSERT INTO containers (id, device, port) *)
| SqlSelectAll                                      (* SELECT id, device, port FROM containers *)
| SqlSelectList                                     (* SELECT id, port, name, device FROM containers *)
| SqlSelectDevicePort (id : string)                 (* SELECT device, port ... WHERE id = ? *)
| SqlDelete (id : string)                           (* DELETE FROM containers WHERE id = ? *)
| SqlUpdateName (name id : string)                  (* UPDATE containers SET name = ? WHERE id = ? *)
| FsEvalSymlinks (path : string)
| FsMkdirAll (path : string)
| FsRemoveAll (path : string)
| DkInspect (name : string)
| DkCreate (name : string) (c : Config)
| DkStart (name : string)
| DkStop (name : string)
| DkRemove (name : string)
| DkRestart (name : string).

(** A call together with whether it succeeded. *)
Abbreviation Event := (Call * bool)%type.

#[global] Instance Config_eq_dec : EqDecision Config.
Proof. solve_decision. Defined.
#[global] Instance Call_eq_dec : EqDecision Call.
Proof. solve_decision. Defined.

(** The calls that act on the Docker daemon beyond reading it. *)
Definition is_runtime_mutation (c : Call) : bool :=
  match c with
  | DkCreate _ _ | DkStart _ | DkStop _ | DkRemove _ | DkRestart _ => true
  | _ => false
  end.

(** The calls addressed to the Docker daemon. *)
Definition is_runtime_call (c : Call) : bool :=
  match c with
  | DkInspect _ => true
  | _ => is_runtime_mutation c
  end.

(** Go [error] values: what a collaborator returned, or a [fmt.Errorf]
    wrapping of it. *)
#[local] Unset Elimination Schemes.
Inductive error :=
| External (c : Call)
| Errorf (msg : string) (cause : error)
| ErrorfAll (msg : string) (causes : list error).
#[local] Set Elimination Schemes.

Inductive result (A : Type) :=
| Ok (a : A)
| Err (e : error).
Arguments Ok {A} a.
Arguments Err {A} e.

Definition is_ok {A} (r : result A) : bool :=
  match r with Ok _ => true | Err _ => false end.

(** The state of the collaborators and the calls issued so far. *)
Record World := mkWorld {
  containers : list Row;            (* the table, in rowid order *)
  dirs : gset string;               (* storage directories on the host *)
  daemon : gmap string Container;   (* Docker containers by name *)
  trace : list Event
}.

(** What lies outside the modelled state.  Everything is indexed by the
    number of calls issued so far, so that the same call can fail at one
    moment and succeed at another. *)
Record Env := mkEnv {
  uuid_New : nat -> string;                     (* uuid.New().String() *)
  symlink : nat -> string -> option string;     (* target of a symlink, if it resolves *)
  fault : nat -> Call -> bool                   (* the call fails *)
}.

Definition empty_world : World := mkWorld [] ∅ ∅ [].

Definition ports (rows : list Row) : list Z := map row_port rows.
Definition ids (rows : list Row) : list string := map row_id rows.

(** ** The collaborators *)

Definition M (A : Type) : Type := World -> result A * World.

Definition ret {A} (a : A) : M A := fun w => (Ok a, w).

Definition bind {A B} (m : M A) (k : A -> M B) : M B :=
  fun w => match m w with
           | (Ok a, w') => k a w'
           | (Err e, w') => (Err e, w')
           end.

(** [if err != nil { return ..., fmt.Errorf("msg: %w", err) }] *)
Definition wrapErr {A} (msg : string) (m : M A) : M A :=
  fun w => match m w with
           | (Ok a, w') => (Ok a, w')
           | (Err e, w') => (Err (Errorf msg e), w')
           end.

Notation "x <- m ;; k" := (bind m (fun x => k))
  (at level 100, m at next level, right associativity).

Definition now (w : World) : nat := length (trace w).

Definition log_call (c : Call) (ok : bool) (w : World) : World :=
  mkWorld (containers w) (dirs w) (daemon w) (trace w ++ [(c, ok)]).

Definition set_containers (rows : list Row) (w : World) : World :=
  mkWorld rows (dirs w) (daemon w) (trace w).
Definition set_dirs (d : gset string) (w : World) : World :=
  mkWorld (containers w) d (daemon w) (trace w).
Definition set_daemon (d : gmap string Container) (w : World) : World :=
  mkWorld (containers w) (dirs w) d (trace w).

(** The largest port of the table; [None] is SQL's NULL on an empty table. *)
Definition max_port (rows : list Row) : option Z :=
  foldr (fun r acc => match acc with
                      | None => Some (row_port r)
                      | Some m => Some (Z.max (row_port r) m)
                      end) None rows.

Definition find_row (id : string) (rows : list Row) : option Row :=
  List.find (fun r => bool_decide (row_id r = id)) rows.

Definition delete_rows (id : string) (rows : list Row) : list Row :=
  List.filter (fun r => negb (bool_decide (row_id r = id))) rows.

Definition rename_rows (name id : string) (rows : list Row) : list Row :=
  map (fun r => if bool_decide (row_id r = id)
                then mkRow (row_id r) (row_device r) (row_port r) (Some name)
                else r) rows.

(** ** The part of fiber the handlers use *)

(** [ContainerInfo] of the [/api/getcontainers] handler. *)
Record ContainerInfo := mkContainerInfo {
  ID : string;
  Port : Z;
  Name : option string;
  Device : string
}.

(** The values the handlers put into a [fiber.Map]. *)
Inductive Value :=
| VBool (b : bool)
| VString (s : string)
| VErrorf (msg : string) (e : error)       (* fmt.Sprintf("msg: %v", err) *)
| VContainers (l : list ContainerInfo).

Definition Map : Type := list (string * Value).

(** The response under construction in a [*fiber.Ctx]. *)
Record Ctx := mkCtx {
  status : Z;
  body : option Map
}.

Definition new_ctx : Ctx := mkCtx 200 None.

(** [c.Status(code)] *)
Definition Status (code : Z) (c : Ctx) : Ctx := mkCtx code (body c).

(** [c.JSON(m)] *)
Definition JSON (m : Map) (c : Ctx) : Ctx := mkCtx (status c) (Some m).

Definition map_get (k : string) (m : Map) : option Value :=
  snd <$> List.find (fun kv => bool_decide (fst kv = k)) m.

(** The identities a response of [/api/getcontainers] lists. *)
Definition listed_ids (c : Ctx) : list string :=
  match body c with
  | Some m => match map_get "containers" m with
              | Some (VContainers l) => map ID l
              | _ => []
              end
  | None => []
  end.

Section Gateway.

Variable env : Env.

(** Issue call [c]: it fails when the environment says so or when the
    state gives it no outcome ([run] is [None]); it is logged either way,
    and a failed call leaves the state as it was. *)
Definition perform {A} (c : Call) (run : World -> option (A * World)) : M A :=
  fun w =>
    if fault env (now w) c then (Err (External c), log_call c false w)
    else match run w with
         | Some (a, w') => (Ok a, log_call c true w')
         | None => (Err (External c), log_call c false w)
         end.

(** *** database/sql on the [containers] table *)

Definition QueryMaxPort : M (option Z) :=
  perform SqlMaxPort (fun w => Some (max_port (containers w), w)).

(** The primary key rejects a second row with the same [id]. *)
Definition ExecInsert (id device : string) (port : Z) : M unit :=
  perform (SqlInsert id device port) (fun w =>
    if bool_decide (id ∈ ids (containers w)) then None
    else Some (tt, set_containers (containers w ++ [mkRow id device port None]) w)).

Definition QueryAll : M (list Row) :=
  perform SqlSelectAll (fun w => Some (containers w, w)).

Definition QueryList : M (list Row) :=
  perform SqlSelectList (fun w => Some (containers w, w)).

(** [QueryRow(...).Scan(&device, &port)]: [sql.ErrNoRows] without a row. *)
Definition QueryDevicePort (id : string) : M (string * Z) :=
  perform (SqlSelectDevicePort id) (fun w =>
    match find_row id (containers w) with
    | Some r => Some ((row_device r, row_port r), w)
    | None => None
    end).

Definition ExecDelete (id : string) : M unit :=
  perform (SqlDelete id) (fun w =>
    Some (tt, set_containers (delete_rows id (containers w)) w)).

Definition ExecUpdateName (name id : string) : M unit :=
  perform (SqlUpdateName name id) (fun w =>
    Some (tt, set_containers (rename_rows name id (containers w)) w)).

(** *** Filesystem *)

Definition EvalSymlinks (path : string) : M string :=
  perform (FsEvalSymlinks path) (fun w =>
    match symlink env (now w) path with
    | Some target => Some (target, w)
    | None => None
    end).

Definition MkdirAll (path : string) : M unit :=
  perform (FsMkdirAll path) (fun w => Some (tt, set_dirs ({[path]} ∪ dirs w) w)).

Definition RemoveAll (path : string) : M unit :=
  perform (FsRemoveAll path) (fun w => Some (tt, set_dirs (dirs w ∖ {[path]}) w)).

(** *** Docker daemon.  A container is addressed by its name; the ID that
    [ContainerCreate] returns is that name. *)

Definition ContainerInspect (name : string) : M Container :=
  perform (DkInspect name) (fun w =>
    match daemon w !! name with
    | Some c => Some (c, w)
    | None => None
    end).

Definition ContainerCreate (name : string) (c : Config) : M string :=
  perform (DkCreate name c) (fun w =>
    match daemon w !! name with
    | Some _ => None
    | None => Some (name, set_daemon (<[name := mkContainer c false]> (daemon w)) w)
    end).

Definition set_running (b : bool) (name : string) (w : World) : option (unit * World) :=
  match daemon w !! name with
  | Some c => Some (tt, set_daemon (<[name := mkContainer (config c) b]> (daemon w)) w)
  | None => None
  end.

Definition ContainerStart (name : string) : M unit :=
  perform (DkStart name) (set_running true name).

Definition ContainerStop (name : string) : M unit :=
  perform (DkStop name) (set_running false name).

Definition ContainerRestart (name : string) : M unit :=
  perform (DkRestart name) (set_running true name).

Definition ContainerRemove (name : string) : M unit :=
  perform (DkRemove name) (fun w =>
    match daemon w !! name with
    | Some _ => Some (tt, set_daemon (delete name (daemon w)) w)
    | None => None
    end).

(** ** utils/docker.go *)

Definition createOctoPrintContainer (id device : string) (port : Z) : M string :=
  let portStr := pretty port in
  let containerPort := "80/tcp" in
  let symlinkPath := "/dev/serial/by-id/" +:+ device in
  usb <- wrapErr ("failed to resolve device symlink " +:+ symlinkPath)
           (EvalSymlinks symlinkPath) ;;
  let cfg := {| Image := "octoprint/octoprint";
                ExposedPort := containerPort;
                HostPort := portStr;
                MountSource := "/mnt/storage/octoprint/" +:+ id;
                MountTarget := "/octoprint";
                PathOnHost := usb;
                PathInContainer := usb;
                CgroupPermissions := "rwm";
                RestartPolicy := "unless-stopped" |} in
  let containerName := "octoprint-" +:+ id in
  respID <- wrapErr "failed to create container" (ContainerCreate containerName cfg) ;;
  _ <- wrapErr "failed to start container" (ContainerStart respID) ;;
  ret containerName.

Definition getNextAvailablePort : M Z :=
  maxPort <- wrapErr "failed to query max port" QueryMaxPort ;;
  match maxPort with
  | None => ret 2000
  | Some v => ret (GoInt.add v 1)
  end.

Definition CreateNewContainer (device : string) : M string :=
  fun w =>
    let id := uuid_New env (now w) in
    (port <- wrapErr "failed to get next available port" getNextAvailablePort ;;
     let volumePath := "/mnt/storage/octoprint/" +:+ id in
     _ <- wrapErr "failed to create volume directory" (MkdirAll volumePath) ;;
     containerName <- createOctoPrintContainer id device port ;;
     _ <- wrapErr "failed to insert new container into database"
            (ExecInsert id device port) ;;
     ret containerName) w.

(** The body of the [for rows.Next()] loop of [RecreateAllContainers] for
    the row [r]; it returns the [errors] slice, extended or not.  The rows
    of this table scan into [(string, string, int)]. *)
Definition recreateRow (r : Row) (errors : list error)
  : World -> list error * World :=
  fun w =>
    let containerName := "octoprint-" +:+ row_id r in
    match ContainerInspect containerName w with
    | (Ok containerJSON, w1) =>
        if Running containerJSON then (errors, w1)
        else
          match ContainerStart containerName w1 with
          | (Err err, w2) =>
              (errors ++ [Errorf ("failed to start existing container "
                                   +:+ containerName) err], w2)
          | (Ok _, w2) => (errors, w2)
          end
    | (Err _, w1) =>
        match createOctoPrintContainer (row_id r) (row_device r) (row_port r) w1 with
        | (Err err, w2) =>
            (errors ++ [Errorf ("failed to create container "
                                 +:+ containerName) err], w2)
        | (Ok _, w2) => (errors, w2)
        end
    end.

(** The loop itself; the iteration of an opened result set runs to its
    end. *)
Fixpoint recreateLoop (rows : list Row) (errors : list error)
  : World -> list error * World :=
  match rows with
  | [] => fun w => (errors, w)
  | r :: rest => fun w =>
      let '(errors', w') := recreateRow r errors w in
      recreateLoop rest errors' w'
  end.

Definition RecreateAllContainers : M unit :=
  rows <- wrapErr "failed to query containers" QueryAll ;;
  fun w =>
    let '(errors, w') := recreateLoop rows [] w in
    if bool_decide (0 < length errors)%nat
    then (Err (ErrorfAll "encountered errors while starting containers" errors), w')
    else (Ok tt, w').

(** [DeleteContainer] writes its failure into the fiber context; what it
    returns to the handler is the context. *)
Definition DeleteContainer (c : Ctx) (id : string) : World -> Ctx * World :=
  fun w =>
    let containerName := "octoprint-" +:+ id in
    let '(_, w1) := ContainerStop containerName w in
    match ContainerRemove containerName w1 with
    | (Err _, w2) =>
        (JSON [("error", VString "Failed to remove container")] (Status 500 c), w2)
    | (Ok _, w2) =>
        match ExecDelete id w2 with
        | (Err _, w3) =>
            (JSON [("error", VString "Failed to delete container from database")]
               (Status 500 c), w3)
        | (Ok _, w3) =>
            let volumePath := "/mnt/storage/octoprint/" +:+ id in
            match RemoveAll volumePath w3 with
            | (Err _, w4) =>
                (JSON [("error", VString "Failed to delete volume directory")]
                   (Status 500 c), w4)
            | (Ok _, w4) => (c, w4)
            end
        end
    end.

(** ** main.go: the handlers.  A request body that [BodyParser] rejects is
    [None]. *)

Definition Handler : Type := Ctx -> World -> Ctx * World.

Definition invalid_body (c : Ctx) : Ctx :=
  JSON [("error", VString "Invalid request body")] (Status 400 c).

Definition newcontainer (req : option string) : Handler :=
  fun c w =>
    match req with
    | None => (invalid_body c, w)
    | Some device =>
        match CreateNewContainer device w with
        | (Err err, w1) =>
            (JSON [("error", VErrorf "Failed to create container" err)] (Status 500 c), w1)
        | (Ok containerName, w1) =>
            (JSON [("error", VBool false); ("containerName", VString containerName)] c, w1)
        end
    end.

Definition getcontainers : Handler :=
  fun c w =>
    match QueryList w with
    | (Err _, w1) =>
        (JSON [("error", VString "Failed to query containers")] (Status 500 c), w1)
    | (Ok rows, w1) =>
        let containers :=
          map (fun r => {| ID := row_id r; Port := row_port r;
                           Name := row_name r; Device := row_device r |}) rows in
        (JSON [("error", VBool false); ("containers", VContainers containers)] c, w1)
    end.

Definition deletecontainer (req : option string) : Handler :=
  fun c w =>
    match req with
    | None => (invalid_body c, w)
    | Some id =>
        let '(c1, w1) := DeleteContainer c id w in
        (JSON [("error", VBool false); ("id", VString id)] c1, w1)
    end.

(** [/api/restartcontainer] of the earlier revision of main.go. *)
Definition restartcontainer_v1 (req : option string) : Handler :=
  fun c w =>
    match req with
    | None => (invalid_body c, w)
    | Some id =>
        match ContainerRestart ("octoprint-" +:+ id) w with
        | (Err _, w1) =>
            (JSON [("error", VString "Failed to restart container")] (Status 500 c), w1)
        | (Ok _, w1) =>
            (JSON [("error", VBool false); ("id", VString id)] c, w1)
        end
    end.

Definition renamecontainer (req : option (string * string)) : Handler :=
  fun c w =>
    match req with
    | None => (invalid_body c, w)
    | Some (id, name) =>
        match ExecUpdateName name id w with
        | (Err _, w1) =>
            (JSON [("error", VString "Failed to rename container")] (Status 500 c), w1)
        | (Ok _, w1) =>
            (JSON [("error", VBool false); ("id", VString id); ("name", VString name)] c, w1)
        end
    end.

(** Modelled from the spec: [utils.CreateOctoPrintContainer] with a
    [configdir] argument, which the later revision of main.go calls; the
    file that declares it is missing.  It is [createOctoPrintContainer] with
    the storage directory of the identity taken beneath [configdir]
    ("per-identity storage directory at a fixed root keyed by identity"). *)
Definition CreateOctoPrintContainer (id device : string) (port : Z)
    (configdir : string) : M string :=
  let portStr := pretty port in
  let symlinkPath := "/dev/serial/by-id/" +:+ device in
  usb <- wrapErr ("failed to resolve device symlink " +:+ symlinkPath)
           (EvalSymlinks symlinkPath) ;;
  let cfg := {| Image := "octoprint/octoprint";
                ExposedPort := "80/tcp";
                HostPort := portStr;
                MountSource := configdir +:+ "/" +:+ id;
                MountTarget := "/octoprint";
                PathOnHost := usb;
                PathInContainer := usb;
                CgroupPermissions := "rwm";
                RestartPolicy := "unless-stopped" |} in
  let containerName := "octoprint-" +:+ id in
  respID <- wrapErr "failed to create container" (ContainerCreate containerName cfg) ;;
  _ <- wrapErr "failed to start container" (ContainerStart respID) ;;
  ret containerName.

Definition failed_with_status (msg : string) (c : Ctx) : Ctx :=
  JSON [("error", VString msg); ("status", VBool false)] (Status 500 c).

(** [/api/restartcontainer] of the later revision of main.go, which also
    keeps the [containerStatus] map. *)
Definition restartcontainer (configdir : string) (req : option string)
    (containerStatus : gmap string bool) (c : Ctx) (w : World)
  : Ctx * gmap string bool * World :=
  match req with
  | None => (invalid_body c, containerStatus, w)
  | Some id =>
      let containerName := "octoprint-" +:+ id in
      let done w' :=
        (JSON [("error", VBool false); ("id", VString id)] c,
         <[id := true]> containerStatus, w') in
      match ContainerInspect containerName w with
      | (Ok _, w1) =>
          match ContainerRestart containerName w1 with
          | (Err _, w2) =>
              (failed_with_status "Failed to restart container" c,
               <[id := false]> containerStatus, w2)
          | (Ok _, w2) => done w2
          end
      | (Err _, w1) =>
          match QueryDevicePort id w1 with
          | (Err _, w2) =>
              (failed_with_status "Failed to get container info" c,
               <[id := false]> containerStatus, w2)
          | (Ok (device, port), w2) =>
              match CreateOctoPrintContainer id device port configdir w2 with
              | (Err _, w3) =>
                  (failed_with_status "Failed to recreate container" c,
                   <[id := false]> containerStatus, w3)
              | (Ok _, w3) => done w3
              end
          end
      end
  end.

(** Creating one container per device, one call after the other. *)
Definition create_all (devices : list string) (w : World) : World :=
  foldl (fun w device => snd (CreateNewContainer device w)) w devices.

End Gateway.

(** ** main.go: [/api/listusb] (the same in both revisions) *)

(** What [os.Stat] answers. *)
Inductive StatResult :=
| StatFound
| StatNotExist
| StatFailed.

(** An entry of [os.ReadDir]. *)
Record DirEntry := mkDirEntry {
  entry_Name : string;
  entry_IsDir : bool
}.

(** What the handler reads from the host for one request: [os.Stat] of
    [/dev/serial], [os.ReadDir] of [/dev/serial/by-id] ([None] when it
    fails) and whether the query for the devices succeeds. *)
Record Host := mkHost {
  stat_serial : StatResult;
  readdir_by_id : option (list DirEntry);
  query_devices_ok : bool
}.

(** [DeviceInfo] of the handler. *)
Record DeviceInfo := mkDeviceInfo {
  device_Name : string;
  InUse : bool
}.

Inductive UsbValue :=
| UsbBool (b : bool)
| UsbString (s : string)
| UsbDevices (l : list DeviceInfo).

Record UsbCtx := mkUsbCtx {
  usb_status : Z;
  usb_body : option (list (string * UsbValue))
}.

(** The [usedDevices] map after the loop over the rows of
    [SELECT device FROM containers]. *)
Definition usedDevices_of (rows : list Row) : gmap string bool :=
  foldl (fun usedDevices r => <[row_device r := true]> usedDevices) ∅ rows.

(** The [devices] slice after the loop over the directory entries; a key
    missing from a Go map reads as [false]. *)
Definition devices_of (usedDevices : gmap string bool) (files : list DirEntry)
  : list DeviceInfo :=
  foldl (fun devices file =>
           if negb (entry_IsDir file)
           then devices ++ [mkDeviceInfo (entry_Name file)
                              (default false (usedDevices !! entry_Name file))]
           else devices) [] files.

Definition listusb (h : Host) (w : World) : UsbCtx :=
  match stat_serial h with
  | StatNotExist =>
      mkUsbCtx 200 (Some [("error", UsbBool true);
                          ("message", UsbString "No USB Devices plugged in")])
  | _ =>
      match readdir_by_id h with
      | None => mkUsbCtx 500 (Some [("error", UsbString "Failed to list USB devices")])
      | Some files =>
          if query_devices_ok h
          then
            let usedDevices := usedDevices_of (containers w) in
            let devices := devices_of usedDevices files in
            mkUsbCtx 200 (Some [("error", UsbBool false); ("devices", UsbDevices devices)])
          else mkUsbCtx 500 (Some [("error", UsbString "Failed to query used devices")])
      end
  end.

(** The devices a response of [/api/listusb] lists. *)
Definition listed_devices (c : UsbCtx) : list DeviceInfo :=
  match usb_body c with
  | Some [("error", UsbBool false); ("devices", UsbDevices l)] => l
  | _ => []
  end.

(** ** main.go, later revision: [/api/getcontainers] with the status cache *)

(** [ContainerInfo] of the later revision, with its [Status] field. *)
Record ContainerStatusInfo := mkContainerStatusInfo {
  cs_ID : string;
  cs_Port : Z;
  cs_Name : option string;
  cs_Device : string;
  cs_Status : bool
}.

Inductive StatusValue :=
| SBool (b : bool)
| SString (s : string)
| SContainers (l : list ContainerStatusInfo).

Record StatusCtx := mkStatusCtx {
  cs_status : Z;
  cs_body : option (list (string * StatusValue))
}.

Section LaterRevision.

Variable env : Env.

(** A key missing from [containerStatus] reads as [false]. *)
Definition getcontainers_status (containerStatus : gmap string bool) (w : World)
  : StatusCtx * World :=
  match QueryList env w with
  | (Err _, w1) =>
      (mkStatusCtx 500 (Some [("error", SString "Failed to query containers")]), w1)
  | (Ok rows, w1) =>
      let containers :=
        map (fun r => {| cs_ID := row_id r; cs_Port := row_port r;
                         cs_Name := row_name r; cs_Device := row_device r;
                         cs_Status := default false (containerStatus !! row_id r) |})
            rows in
      (mkStatusCtx 200 (Some [("error", SBool false);
                              ("containers", SContainers containers)]), w1)
  end.

End LaterRevision.

(** The entries a response of the later [/api/getcontainers] lists. *)
Definition listed_statuses (c : StatusCtx) : list ContainerStatusInfo :=
  match cs_body c with
  | Some [("error", SBool false); ("containers", SContainers l)] => l
  | _ => []
  end.

(** ** Vocabulary of the statements *)

(** [m] is the largest port of [rows]. *)
Definition is_max_port (rows : list Row) (m : Z) : Prop :=
  m ∈ ports rows /\ forall p, p ∈ ports rows -> p <= m.

(** The events a run has appended to the trace of [w]. *)
Definition events_since (w w' : World) : list Event :=
  drop (length (trace w)) (trace w').

(** Every call of [evs] that [later] selects comes after the event [e]. *)
Definition preceded_by (e : Event) (later : Call -> bool) (evs : list Event) : Prop :=
  forall pre c ok post, evs = pre ++ (c, ok) :: post -> later c = true -> In e pre.

Definition is_insert (c : Call) : bool :=
  match c with SqlInsert _ _ _ => true | _ => false end.

Definition is_inspect (c : Call) : bool :=
  match c with DkInspect _ => true | _ => false end.

Definition is_start (c : Call) : bool :=
  match c with DkStart _ => true | _ => false end.

Definition is_stop (c : Call) : bool :=
  match c with DkStop _ => true | _ => false end.

Definition is_remove (c : Call) : bool :=
  match c with DkRemove _ => true | _ => false end.

(** The container a call to the daemon addresses. *)
Definition call_target (c : Call) : option string :=
  match c with
  | DkInspect n | DkCreate n _ | DkStart n | DkStop n | DkRemove n | DkRestart n => Some n
  | _ => None
  end.

(** The events of [evs] addressed to the container [name]. *)
Definition addressed_to (name : string) (evs : list Event) : list Event :=
  List.filter (fun ev => bool_decide (call_target (fst ev) = Some name)) evs.

(** A failed step of the work on a record: any failed call but the
    inspection that merely finds no instance. *)
Definition failed_work (ev : Event) : bool :=
  negb (snd ev) && negb (is_inspect (fst ev)).

(** The call whose failure an error wraps. *)
Fixpoint root_call (e : error) : option Call :=
  match e with
  | External c => Some c
  | Errorf _ cause => root_call cause
  | ErrorfAll _ _ => None
  end.

(** The entries a response of [/api/getcontainers] lists. *)
Definition listed_containers (c : Ctx) : list ContainerInfo :=
  match body c with
  | Some m => match map_get "containers" m with
              | Some (VContainers l) => l
              | _ => []
              end
  | None => []
  end.

(** The entry of a record in a listing. *)
Definition info_of (r : Row) : ContainerInfo :=
  {| ID := row_id r; Port := row_port r; Name := row_name r; Device := row_device r |}.

(** The calls the reconciliation pass may issue. *)
Definition is_reconcile_call (c : Call) : bool :=
  match c with
  | SqlSelectAll | DkInspect _ | FsEvalSymlinks _ | DkCreate _ _ | DkStart _ => true
  | _ => false
  end.

(** ** Sample environments and worlds *)

(** Nothing fails; every device symlink resolves. *)
Definition quiet : Env :=
  mkEnv (fun t => "id-" +:+ pretty t)
        (fun _ path => Some "/dev/ttyUSB0")
        (fun _ _ => false).

(** As [quiet], with the device symlinks missing. *)
Definition unplugged : Env :=
  mkEnv (uuid_New quiet) (fun _ _ => None) (fault quiet).

(** As [quiet], with the calls that [bad] selects failing. *)
Definition failing (bad : Call -> bool) : Env :=
  mkEnv (uuid_New quiet) (symlink quiet) (fun _ c => bad c).

Definition octoprint_config (id port usb : string) : Config :=
  {| Image := "octoprint/octoprint"; ExposedPort := "80/tcp"; HostPort := port;
     MountSource := "/mnt/storage/octoprint/" +:+ id; MountTarget := "/octoprint";
     PathOnHost := usb; PathInContainer := usb; CgroupPermissions := "rwm";
     RestartPolicy := "unless-stopped" |}.

(** Records [A] and [B]; the daemon holds only the instance of [B],
    stopped. *)
Definition two_records : World :=
  mkWorld [mkRow "A" "usbA" 2000 None; mkRow "B" "usbB" 2001 None]
          {["/mnt/storage/octoprint/A"; "/mnt/storage/octoprint/B"]}
          {["octoprint-B" := mkContainer (octoprint_config "B" "2001" "/dev/ttyUSB1") false]}
          [].

(** Record [A] with its instance running. *)
Definition one_running : World :=
  mkWorld [mkRow "A" "usbA" 2000 None]
          {["/mnt/storage/octoprint/A"]}
          {["octoprint-A" := mkContainer (octoprint_config "A" "2000" "/dev/ttyUSB0") true]}
          [].

(** An instance without a record. *)
Definition orphan_instance : World :=
  mkWorld [] ∅
          {["octoprint-ghost" := mkContainer (octoprint_config "ghost" "2000" "/dev/ttyUSB0") false]}
          [].

(** A table whose largest port is the largest [int]. *)
Definition full_table : list Row :=
  [mkRow "A" "usbA" 9223372036854775807 None;
   mkRow "B" "usbB" (-9223372036854775808) None].

(** ** Proof automation: running the calls of a function one by one *)

Ltac unfold_calls :=
  cbv beta iota zeta delta
    [CreateNewContainer createOctoPrintContainer CreateOctoPrintContainer
     getNextAvailablePort recreateRow DeleteContainer
     newcontainer getcontainers deletecontainer restartcontainer_v1
     restartcontainer renamecontainer
     QueryMaxPort ExecInsert QueryAll QueryList QueryDevicePort ExecDelete
     ExecUpdateName EvalSymlinks MkdirAll RemoveAll ContainerInspect
     ContainerCreate ContainerStart ContainerStop ContainerRestart
     ContainerRemove set_running perform bind ret wrapErr].

Ltac simpl_world :=
  cbv beta iota zeta delta
    [log_call set_containers set_dirs set_daemon now
     containers dirs daemon trace fst snd is_ok] in *.

Ltac split_call :=
  match goal with
  | |- context [Running ?c] =>
      is_var c; let F := fresh "Hrun" in destruct (Running c) eqn:F
  | |- context [fault ?e ?t ?c] =>
      let F := fresh "Hfault" in destruct (fault e t c) eqn:F
  | |- context [symlink ?e ?t ?p] =>
      let F := fresh "Hlink" in destruct (symlink e t p) eqn:F
  | |- context [@lookup _ _ (gmap _ _) _ ?k (insert ?k ?v ?m)] =>
      rewrite (lookup_insert_eq m k v)
  | |- context [@lookup _ _ (gmap _ _) _ ?k ?m] =>
      let F := fresh "Hdk" in destruct (m !! k) eqn:F
  | |- context [bool_decide ?P] =>
      let F := fresh "Hdec" in destruct (bool_decide P) eqn:F
  | |- context [max_port ?r] =>
      let F := fresh "Hmax" in destruct (max_port r) eqn:F
  | |- context [find_row ?i ?r] =>
      let F := fresh "Hrow" in destruct (find_row i r) eqn:F
  end.

Ltac run_calls := unfold_calls; repeat (simpl_world; split_call); simpl_world.

(* The same with the moments of the calls written as successors. *)
Ltac norm_time :=
  rewrite ?length_app in *; cbn [length] in *; rewrite ?Nat.add_1_r in *.

Ltac run_timed :=
  unfold_calls; repeat (simpl_world; norm_time; split_call); simpl_world; norm_time.

Ltac norm_events :=
  unfold events_since; simpl_world;
  rewrite <- ?app_assoc; rewrite ?drop_app_length; cbn [app].

(* Case analysis on where an event sits in an explicit list. *)
Ltac by_position :=
  repeat match goal with
         | H : _ = ?pre ++ _ :: _ |- _ =>
             destruct pre; cbn [app] in H; simplify_eq
         end.

(* Point at an event of an explicit list. *)
Ltac find_event :=
  cbn [In]; repeat first [left; reflexivity | right].

(* The events of an explicit list that address a container. *)
Ltac calc_addressed :=
  unfold addressed_to; cbn [List.filter call_target fst];
  repeat case_bool_decide; try congruence.

(* Case analysis on which event of an explicit list a membership names. *)
Ltac in_cases H :=
  cbn [In] in H;
  repeat match type of H with
         | _ \/ _ => destruct H as [H|H]; [try (by simplify_eq)|]
         | False => destruct H
         end;
  try (by simplify_eq); simplify_eq.

(** * Properties *)

(** ** Go [int] arithmetic *)

Lemma wrap_in_range z : GoInt.in_range z -> GoInt.wrap z = z.
Proof.
  unfold GoInt.in_range, GoInt.min_int, GoInt.max_int, GoInt.wrap. intros H.
  rewrite Z.mod_small; lia.
Qed.

Lemma add_one_below_max m :
  GoInt.min_int <= m < GoInt.max_int -> GoInt.add m 1 = m + 1.
Proof.
  intros H. apply wrap_in_range. unfold GoInt.in_range. lia.
Qed.

(** ** The port allocator *)

Lemma max_port_nil rows : max_port rows = None <-> rows = [].
Proof.
  split; [|intros ->; reflexivity].
  destruct rows as [|r rows]; [done|]. simpl.
  destruct (max_port rows); discriminate.
Qed.

(** [max_port] computes the maximum that [is_max_port] describes. *)
Lemma max_port_is_max rows m : max_port rows = Some m <-> is_max_port rows m.
Proof.
  revert m. induction rows as [|r rows IH]; intros m.
  - split; [discriminate|]. intros [H _]. unfold ports in H. simpl in H. inversion H.
  - simpl. unfold is_max_port, ports. simpl. 
    destruct (max_port rows) as [m'|] eqn:E.
    + destruct (proj1 (IH m') eq_refl) as [Hin Hle]. split.
      * intros [= <-]. split.
        -- destruct (Z.max_spec (row_port r) m') as [[_ ->]|[_ ->]].
           ++ by right.
           ++ by left.
        -- intros p [->|Hp]%elem_of_cons; [lia|]. specialize (Hle p Hp). lia.
      * intros [Hm Hall]. f_equal.
        assert (m' <= m) by (apply Hall; by right).
        assert (row_port r <= m) by (apply Hall; by left).
        apply elem_of_cons in Hm as [->|Hm]; [lia|].
        specialize (Hle m Hm). lia.
    + apply max_port_nil in E as ->. simpl. split.
      * intros [= <-]. split; [by left|]. intros p [->|Hp]%elem_of_cons; [lia|inversion Hp].
      * intros [[->|Hm]%elem_of_cons _]; [done|inversion Hm].
Qed.

Lemma is_max_port_unique rows m1 m2 : is_max_port rows m1 -> is_max_port rows m2 -> m1 = m2.
Proof. intros [H1 L1] [H2 L2]. specialize (L1 _ H2). specialize (L2 _ H1). lia. Qed.

Lemma is_max_port_perm rows rows' m : rows ≡ₚ rows' -> is_max_port rows m -> is_max_port rows' m.
Proof.
  intros HP [H L]. assert (ports rows ≡ₚ ports rows') as HP' by (unfold ports; by rewrite HP).
  split.
  - by rewrite <- HP'.
  - intros p Hp. apply L. by rewrite HP'.
Qed.

Lemma max_port_perm rows rows' : rows ≡ₚ rows' -> max_port rows = max_port rows'.
Proof.
  intros HP. destruct (max_port rows) as [m|] eqn:E.
  - symmetry. apply max_port_is_max. eapply is_max_port_perm; [done|]. by apply max_port_is_max.
  - apply max_port_nil in E as ->. apply Permutation_nil_l in HP. by subst.
Qed.

Lemma getNextAvailablePort_ok env w :
  fault env (now w) SqlMaxPort = false ->
  getNextAvailablePort env w =
    (Ok (match max_port (containers w) with None => 2000 | Some v => GoInt.add v 1 end),
     log_call SqlMaxPort true w).
Proof.
  intros Hf. unfold getNextAvailablePort, bind, wrapErr, QueryMaxPort, perform.
  rewrite Hf. by destruct (max_port (containers w)).
Qed.

Lemma getNextAvailablePort_err env w :
  fault env (now w) SqlMaxPort = true ->
  getNextAvailablePort env w =
    (Err (Errorf "failed to query max port" (External SqlMaxPort)), log_call SqlMaxPort false w).
Proof.
  intros Hf. unfold getNextAvailablePort, bind, wrapErr, QueryMaxPort, perform.
  by rewrite Hf.
Qed.

(** C2 (as amended).  When the query succeeds, [next_port()] returns 2000
    on an empty record store and [max(port) + 1] on a non-empty one whose
    largest port [m] is below the largest [int]; the result is the same for
    every store holding the same records. *)
Theorem next_port_baseline_or_successor env w :
  fault env (now w) SqlMaxPort = false ->
  (containers w = [] -> fst (getNextAvailablePort env w) = Ok 2000) /\
  (forall m, is_max_port (containers w) m -> GoInt.min_int <= m < GoInt.max_int ->
     fst (getNextAvailablePort env w) = Ok (m + 1)) /\
  (forall env' w', fault env' (now w') SqlMaxPort = false ->
     containers w' ≡ₚ containers w ->
     fst (getNextAvailablePort env' w') = fst (getNextAvailablePort env w)).
Proof.
  intros Hf. rewrite getNextAvailablePort_ok by done. simpl. repeat split.
  - by intros ->.
  - intros m Hm Hr. apply max_port_is_max in Hm as ->. by rewrite add_one_below_max.
  - intros env' w' Hf' HP. rewrite getNextAvailablePort_ok by done. simpl.
    by rewrite (max_port_perm _ _ HP).
Qed.

(** C2 (as stated) fails where [int] wraps: with the largest port at
    [2^63 - 1] the allocator returns [-2^63], not [max + 1]. *)
Lemma next_port_wraps_at_max_int :
  is_max_port full_table 9223372036854775807 /\
  fst (getNextAvailablePort quiet (mkWorld full_table ∅ ∅ [])) = Ok (-9223372036854775808) /\
  fst (getNextAvailablePort quiet (mkWorld full_table ∅ ∅ [])) <> Ok (9223372036854775807 + 1).
Proof.
  split; [by apply max_port_is_max|]. split; [reflexivity|]. discriminate.
Qed.

(** The allocator on the two-record store. *)
Lemma next_port_witness :
  fst (getNextAvailablePort quiet two_records) = Ok 2002.
Proof.
  apply (proj1 (proj2 (next_port_baseline_or_successor quiet two_records eq_refl)) 2001).
  - apply max_port_is_max. reflexivity.
  - unfold GoInt.min_int, GoInt.max_int. lia.
Defined.

(** ** Creation *)

(** A creation leaves the table as it is or appends one row, which carries
    the allocated port. *)
Lemma CreateNewContainer_table env device w :
  let w' := snd (CreateNewContainer env device w) in
  containers w' = containers w \/
  exists port, fst (getNextAvailablePort env w) = Ok port /\
    (uuid_New env (now w) ∉ ids (containers w)) /\
    containers w' = containers w ++ [mkRow (uuid_New env (now w)) device port None].
Proof.
  destruct w as [tbl ds dm tr].
  run_calls.
  all: try (left; reflexivity).
  all: right; eexists; split; [reflexivity|]; split; [|reflexivity].
  all: by apply bool_decide_eq_false in Hdec.
Qed.

Lemma getNextAvailablePort_result env w port :
  fst (getNextAvailablePort env w) = Ok port ->
  (containers w = [] /\ port = 2000) \/
  (exists m, is_max_port (containers w) m /\ port = GoInt.add m 1).
Proof.
  destruct (fault env (now w) SqlMaxPort) eqn:Hf.
  - by rewrite getNextAvailablePort_err.
  - rewrite getNextAvailablePort_ok by done. simpl.
    destruct (max_port (containers w)) as [m|] eqn:E; intros [= <-].
    + right. exists m. split; [by apply max_port_is_max|done].
    + left. by apply max_port_nil in E.
Qed.

Lemma next_port_fresh env w port B :
  (forall p, p ∈ ports (containers w) -> GoInt.min_int <= p <= B) ->
  1999 <= B < GoInt.max_int ->
  fst (getNextAvailablePort env w) = Ok port ->
  (forall p, p ∈ ports (containers w) -> p < port) /\
  GoInt.min_int <= port <= B + 1.
Proof.
  intros Hb HB [[Hnil ->]|[m [[Hin Hmax] ->]]]%getNextAvailablePort_result.
  - rewrite Hnil. split; [intros p Hp; inversion Hp|].
    unfold GoInt.min_int. lia.
  - specialize (Hb m Hin). rewrite add_one_below_max by lia.
    split; [|lia]. intros p Hp. specialize (Hmax p Hp). lia.
Qed.

Lemma create_step_invariant env device w B :
  NoDup (ports (containers w)) ->
  (forall p, p ∈ ports (containers w) -> GoInt.min_int <= p <= B) ->
  1999 <= B < GoInt.max_int ->
  NoDup (ports (containers (snd (CreateNewContainer env device w)))) /\
  (forall p, p ∈ ports (containers (snd (CreateNewContainer env device w))) ->
     GoInt.min_int <= p <= B + 1).
Proof.
  intros Hnd Hb HB.
  destruct (CreateNewContainer_table env device w) as [->|[port [Hport [_ ->]]]].
  - split; [done|]. intros p Hp. specialize (Hb p Hp). lia.
  - destruct (next_port_fresh env w port B Hb HB Hport) as [Hlt Hr].
    unfold ports in *. rewrite map_app. simpl. split.
    + apply NoDup_app. split; [done|]. split; [|apply NoDup_singleton].
      intros p Hp Hq. apply list_elem_of_singleton in Hq. subst.
      specialize (Hlt _ Hp). lia.
    + intros p [Hp|Hp]%elem_of_app.
      * specialize (Hb p Hp). lia.
      * apply list_elem_of_singleton in Hp. by subst.
Qed.

(** C1 (as amended).  Creations run one after the other on a store whose
    ports are pairwise distinct keep them pairwise distinct, as long as the
    ports stay below the largest [int] ([B] bounds the stored ports and
    [B + number of creations] does not exceed [2^63 - 1]); and while the
    largest stored port is below [2^63 - 1] the allocator returns a port
    that no record holds. *)
Theorem create_keeps_ports_distinct env devices w B :
  NoDup (ports (containers w)) ->
  (forall p, p ∈ ports (containers w) -> GoInt.min_int <= p <= B) ->
  1999 <= B ->
  B + Z.of_nat (length devices) <= GoInt.max_int ->
  NoDup (ports (containers (create_all env devices w))) /\
  (B < GoInt.max_int ->
   forall port, fst (getNextAvailablePort env w) = Ok port ->
                port ∉ ports (containers w)).
Proof.
  intros Hnd Hb HB Hlen. split.
  - revert w B Hnd Hb HB Hlen.
    induction devices as [|d devices IH]; intros w B Hnd Hb HB Hlen; [done|].
    simpl in Hlen. unfold create_all. simpl. fold (create_all env devices).
    destruct (create_step_invariant env d w B Hnd Hb) as [Hnd' Hb']; [lia|].
    apply (IH _ (B + 1)); [done|done|lia|lia].
  - intros HB' port Hport Hin.
    destruct (next_port_fresh env w port B Hb (conj HB HB') Hport) as [Hlt _].
    specialize (Hlt _ Hin). lia.
Qed.

(** C1 (as stated) fails where [int] wraps: on a store with pairwise
    distinct ports whose largest is [2^63 - 1], the allocator returns
    [-2^63], a port that a record already holds. *)
Lemma allocator_reuses_port_after_wrap :
  NoDup (ports full_table) /\
  fst (getNextAvailablePort quiet (mkWorld full_table ∅ ∅ [])) = Ok (-9223372036854775808) /\
  -9223372036854775808 ∈ ports full_table.
Proof.
  split; [|split; [reflexivity|]].
  - unfold full_table, ports. simpl. apply NoDup_cons. split; [|apply NoDup_singleton].
    intros H%list_elem_of_singleton. discriminate.
  - unfold full_table, ports. simpl. right. left.
Qed.

(** Two creations after the record [A] on port 2000. *)
Lemma create_keeps_ports_distinct_witness :
  NoDup (ports (containers (create_all quiet ["usbB"; "usbC"] one_running))).
Proof.
  apply (create_keeps_ports_distinct quiet ["usbB"; "usbC"] one_running 2000).
  - apply NoDup_singleton.
  - intros p Hp. apply list_elem_of_singleton in Hp. subst. unfold GoInt.min_int. simpl. lia.
  - lia.
  - unfold GoInt.max_int. simpl. lia.
Defined.

(** C3.  In [create(device)] every call to the runtime comes after the
    storage directory was provisioned, the record is inserted only after the
    instance was created and started, and when creating or starting the
    instance fails the creation fails, no record is inserted and the
    directory stays. *)
Theorem create_orders_directory_instance_record env device w :
  let id := uuid_New env (now w) in
  let dir := "/mnt/storage/octoprint/" +:+ id in
  let name := "octoprint-" +:+ id in
  let res := CreateNewContainer env device w in
  let evs := events_since w (snd res) in
  trace (snd res) = trace w ++ evs /\
  preceded_by (FsMkdirAll dir, true) is_runtime_call evs /\
  (forall pre c ok post, evs = pre ++ (c, ok) :: post -> is_insert c = true ->
     (exists cfg, In (DkCreate name cfg, true) pre) /\ In (DkStart name, true) pre) /\
  (forall c, In (c, false) evs -> is_runtime_mutation c = true ->
     is_ok (fst res) = false /\
     containers (snd res) = containers w /\
     dir ∈ dirs (snd res)).
Proof.
  destruct w as [tbl ds dm tr]. unfold preceded_by.
  run_calls; norm_events.
  all: split; [reflexivity|].
  all: split; [intros ? ? ? ? Heq Hlater; by_position; try discriminate;
               cbn [In]; tauto|].
  all: split; [intros ? ? ? ? Heq Hlater; by_position; try discriminate;
               (split; [eexists|]); find_event|].
  all: intros ? Hin Hmut; cbn [In] in Hin; intuition (simplify_eq; try discriminate).
  all: try set_solver.
Qed.

(** A creation whose [ContainerStart] fails. *)
Lemma create_orders_witness :
  let res := CreateNewContainer (failing is_start) "usbA" empty_world in
  is_ok (fst res) = false /\
  containers (snd res) = [] /\
  "/mnt/storage/octoprint/id-0" ∈ dirs (snd res).
Proof.
  apply (proj2 (proj2 (proj2
           (create_orders_directory_instance_record (failing is_start) "usbA" empty_world)))
           (DkStart "octoprint-id-0")).
  - vm_compute. find_event.
  - reflexivity.
Defined.

(** C6 (as amended).  [create(device)] for a device whose symlink does not
    resolve fails, issues no call to the runtime and leaves the record store
    and the daemon as they were (no row, no port consumed); when the port
    query and the directory creation succeed, the failure is the resolution
    error, and the storage directory of the fresh identity, provisioned
    before the device is resolved, stays. *)
Theorem create_with_unresolvable_device env device w :
  (forall t, symlink env t ("/dev/serial/by-id/" +:+ device) = None) ->
  let id := uuid_New env (now w) in
  let dir := "/mnt/storage/octoprint/" +:+ id in
  let path := "/dev/serial/by-id/" +:+ device in
  let res := CreateNewContainer env device w in
  let evs := events_since w (snd res) in
  is_ok (fst res) = false /\
  containers (snd res) = containers w /\
  daemon (snd res) = daemon w /\
  (forall c ok, In (c, ok) evs -> is_runtime_call c = false) /\
  (fault env (now w) SqlMaxPort = false ->
   fault env (S (now w)) (FsMkdirAll dir) = false ->
   fst res = Err (Errorf ("failed to resolve device symlink " +:+ path)
                    (External (FsEvalSymlinks path))) /\
   In (FsMkdirAll dir, true) evs /\
   dir ∈ dirs (snd res)).
Proof.
  intros Hlink. destruct w as [tbl ds dm tr].
  run_calls; norm_events.
  all: try (rewrite Hlink in *; discriminate).
  all: repeat split; try done.
  all: try (intros ? ? Hin; cbn [In] in Hin; intuition (by simplify_eq)).
  all: rewrite ?length_app, ?Nat.add_1_r in *; cbn [length] in *;
       rewrite ?Nat.add_1_r in *; try congruence.
  all: try find_event.
  all: set_solver.
Qed.

(** A creation with every device unplugged. *)
Lemma create_with_unresolvable_device_witness :
  let res := CreateNewContainer unplugged "usbC" empty_world in
  is_ok (fst res) = false /\ containers (snd res) = [] /\ daemon (snd res) = ∅.
Proof.
  pose proof (create_with_unresolvable_device unplugged "usbC" empty_world
                (fun _ => eq_refl)) as (H1 & H2 & H3 & _).
  exact (conj H1 (conj H2 H3)).
Defined.

(** C6 (as stated) fails: the creation for an unresolvable device does
    not abort before any mutation, it has created the storage directory. *)
Lemma create_unplugged_leaves_directory :
  let res := CreateNewContainer unplugged "usbC" empty_world in
  fst res = Err (Errorf "failed to resolve device symlink /dev/serial/by-id/usbC"
                   (External (FsEvalSymlinks "/dev/serial/by-id/usbC"))) /\
  containers (snd res) = [] /\
  events_since empty_world (snd res) =
    [(SqlMaxPort, true);
     (FsMkdirAll "/mnt/storage/octoprint/id-0", true);
     (FsEvalSymlinks "/dev/serial/by-id/usbC", false)] /\
  "/mnt/storage/octoprint/id-0" ∈ dirs (snd res) /\
  dirs (snd res) <> dirs empty_world.
Proof.
  assert ("/mnt/storage/octoprint/id-0"
          ∈ dirs (snd (CreateNewContainer unplugged "usbC" empty_world))) as Hin.
  { apply (bool_decide_unpack _). vm_compute. exact I. }
  split; [reflexivity|]. split; [reflexivity|]. split; [reflexivity|].
  split; [exact Hin|].
  intros Heq. rewrite Heq in Hin. set_solver.
Qed.

(** ** Deletion and listing *)

Lemma delete_rows_spec id rows r :
  r ∈ delete_rows id rows <-> r ∈ rows /\ row_id r <> id.
Proof.
  unfold delete_rows. rewrite !list_elem_of_In, filter_In, negb_true_iff, bool_decide_eq_false.
  done.
Qed.

Lemma delete_rows_forgets id rows : id ∉ ids (delete_rows id rows).
Proof.
  unfold ids. intros (r & Hid & Hr)%list_elem_of_fmap.
  apply delete_rows_spec in Hr as [_ Hne]. congruence.
Qed.

Lemma getcontainers_lists env c w :
  listed_ids (fst (getcontainers env c w)) =
    if fault env (now w) SqlSelectList then [] else ids (containers w).
Proof.
  destruct w as [tbl ds dm tr]. run_calls; [reflexivity|].
  unfold listed_ids, ids. cbn. case_bool_decide; [discriminate|]. case_bool_decide; [|done]. cbn. by rewrite map_map.
Qed.

Lemma DeleteContainer_table env c id w :
  let w' := snd (DeleteContainer env c id w) in
  let evs := events_since w w' in
  (In (SqlDelete id, true) evs /\ In (DkRemove ("octoprint-" +:+ id), true) evs /\
   containers w' = delete_rows id (containers w)) \/
  (~ In (SqlDelete id, true) evs /\ containers w' = containers w).
Proof.
  destruct w as [tbl ds dm tr].
  run_calls; norm_events.
  all: first [ left; split; [find_event|split; [find_event|reflexivity]]
             | right; split; [|reflexivity]; cbn [In]; intuition (by simplify_eq) ].
Qed.

(** C5 (as amended).  After [delete(identity)] has returned, [list()] does
    not include the identity whenever the record deletion was carried out,
    which happens only after the runtime removal succeeded and whatever the
    outcome of the stop step; when the runtime removal fails, the deletion
    stops there, the record store is left as it was and [list()] still
    shows what it showed. *)
Theorem delete_then_list env id w :
  let name := "octoprint-" +:+ id in
  let del := deletecontainer env (Some id) new_ctx w in
  let evs := events_since w (snd del) in
  let listing := getcontainers env new_ctx (snd del) in
  (In (SqlDelete id, true) evs ->
     In (DkRemove name, true) evs /\ id ∉ listed_ids (fst listing)) /\
  (In (DkRemove name, false) evs ->
     containers (snd del) = containers w /\
     status (fst del) = 500 /\
     (fault env (now (snd del)) SqlSelectList = false ->
      listed_ids (fst listing) = ids (containers w))).
Proof.
  intros name del evs listing.
  assert (snd del = snd (DeleteContainer env new_ctx id w)) as Hsnd.
  { subst del. unfold deletecontainer. by destruct (DeleteContainer env new_ctx id w). }
  split.
  - intros Hin. subst evs listing. rewrite Hsnd in *.
    destruct (DeleteContainer_table env new_ctx id w) as [(_ & Hrm & Htbl)|[Hno _]];
      [|done].
    split; [exact Hrm|]. rewrite getcontainers_lists.
    destruct (fault env _ SqlSelectList); [set_solver|].
    rewrite Htbl. apply delete_rows_forgets.
  - subst evs listing del name. clear Hsnd. rewrite getcontainers_lists.
    destruct w as [tbl ds dm tr]. 
    unfold deletecontainer. run_calls; norm_events.
    all: intros Hin; cbn [In] in Hin.
    all: try (exfalso; intuition (by simplify_eq)).
    all: split; [reflexivity|split; [reflexivity|]].
    all: by intros Hq.
Qed.

(** A deletion whose stop step fails and whose removal succeeds. *)
Lemma delete_then_list_witness :
  let del := deletecontainer (failing is_stop) (Some "A") new_ctx one_running in
  In (DkStop "octoprint-A", false) (events_since one_running (snd del)) /\
  In (DkRemove "octoprint-A", true) (events_since one_running (snd del)) /\
  "A" ∉ listed_ids (fst (getcontainers (failing is_stop) new_ctx (snd del))).
Proof.
  split; [vm_compute; find_event|].
  apply (proj1 (delete_then_list (failing is_stop) "A" one_running)).
  vm_compute. find_event.
Defined.

(** C5 (as stated) fails: when the runtime removal fails, the record is
    kept and [list()] still includes the identity. *)
Lemma failed_removal_keeps_record_listed :
  let del := deletecontainer (failing is_remove) (Some "A") new_ctx one_running in
  events_since one_running (snd del) =
    [(DkStop "octoprint-A", true); (DkRemove "octoprint-A", false)] /\
  fst del = mkCtx 500 (Some [("error", VBool false); ("id", VString "A")]) /\
  listed_ids (fst (getcontainers (failing is_remove) new_ctx (snd del))) = ["A"] /\
  "A" ∈ listed_ids (fst (getcontainers (failing is_remove) new_ctx (snd del))).
Proof.
  split; [reflexivity|]. split; [reflexivity|]. split; [reflexivity|].
  change ("A" ∈ ["A"]). by left.
Qed.

(** ** Port reuse after a deletion *)

Lemma NoDup_ports_inj rows r1 r2 :
  NoDup (ports rows) -> r1 ∈ rows -> r2 ∈ rows -> row_port r1 = row_port r2 -> r1 = r2.
Proof.
  unfold ports. induction rows as [|r rows IH]; intros Hnd H1 H2 Heq.
  - inversion H1.
  - simpl in Hnd. apply NoDup_cons in Hnd as [Hnotin Hnd].
    apply elem_of_cons in H1 as [->|H1]; apply elem_of_cons in H2 as [->|H2].
    + done.
    + exfalso. apply Hnotin. rewrite Heq. apply list_elem_of_fmap. eauto.
    + exfalso. apply Hnotin. rewrite <- Heq. apply list_elem_of_fmap. eauto.
    + by apply IH.
Qed.

(** C10 (as amended).  The allocator depends only on the largest stored
    port.  After the record holding the largest port [p] of a store with
    pairwise distinct ports was deleted, the next [next_port()] returns one
    more than the largest remaining port, at most [p], or 2000 when no
    record remains; it returns [p] itself exactly when the largest remaining
    port is [p - 1], or when no record remains and [p] is 2000. *)
Theorem next_port_after_deleting_max env c r w :
  r ∈ containers w ->
  NoDup (ports (containers w)) ->
  is_max_port (containers w) (row_port r) ->
  (forall p, p ∈ ports (containers w) -> GoInt.in_range p) ->
  let w1 := snd (DeleteContainer env c (row_id r) w) in
  In (SqlDelete (row_id r), true) (events_since w w1) ->
  fault env (now w1) SqlMaxPort = false ->
  exists q,
    fst (getNextAvailablePort env w1) = Ok q /\
    (containers w1 = [] -> q = 2000) /\
    (forall m, is_max_port (containers w1) m -> q = m + 1 /\ q <= row_port r) /\
    (q = row_port r <->
       (containers w1 = [] /\ row_port r = 2000) \/
       is_max_port (containers w1) (row_port r - 1)) /\
    (forall env' w', fault env' (now w') SqlMaxPort = false ->
       max_port (containers w') = max_port (containers w1) ->
       fst (getNextAvailablePort env' w') = Ok q).
Proof.
  intros Hr Hnd [_ Hmax] Hrange w1.
  pose proof (DeleteContainer_table env c (row_id r) w) as Ht.
  cbv zeta in Ht. fold w1 in Ht. clearbody w1. intros Hdel Hq.
  destruct Ht as [(_ & _ & Htbl)|[Hno _]]; [|done].
  assert (forall m, is_max_port (containers w1) m ->
                    GoInt.min_int <= m < row_port r /\ row_port r <= GoInt.max_int)
    as Hbelow.
  { intros m [Hm _]. rewrite Htbl in Hm. unfold ports in Hm.
    apply list_elem_of_fmap in Hm as (r' & -> & Hr').
    apply delete_rows_spec in Hr' as [Hr' Hne].
    assert (row_port r' ∈ ports (containers w)) as Hp
      by (apply list_elem_of_fmap; eauto).
    assert (row_port r ∈ ports (containers w)) as Hp0
      by (apply list_elem_of_fmap; eauto).
    pose proof (Hmax _ Hp). pose proof (Hrange _ Hp) as [? ?].
    pose proof (Hrange _ Hp0) as [? ?].
    assert (row_port r' <> row_port r).
    { intros Heq. apply Hne. f_equal. by apply (NoDup_ports_inj (containers w)). }
    lia. }
  rewrite getNextAvailablePort_ok by done. cbn [fst].
  destruct (max_port (containers w1)) as [m|] eqn:E.
  - apply max_port_is_max in E. destruct (Hbelow m E) as [Hlo Hhi].
    exists (m + 1). rewrite add_one_below_max by lia.
    split; [done|]. split; [|split; [|split]].
    + intros Hnil. destruct E as [E _]. rewrite Hnil in E. inversion E.
    + intros m' Hm'. rewrite (is_max_port_unique _ _ _ Hm' E). lia.
    + split.
      * intros Heq. right. by replace (row_port r - 1) with m by lia.
      * intros [[Hnil _]|Hm'].
        -- destruct E as [E _]. rewrite Hnil in E. inversion E.
        -- rewrite (is_max_port_unique _ _ _ E Hm'). lia.
    + intros env' w' Hf' Heq. rewrite getNextAvailablePort_ok by done. cbn [fst].
      rewrite Heq. by rewrite add_one_below_max by lia.
  - apply max_port_nil in E as Hnil. exists 2000.
    split; [done|]. split; [done|]. split; [|split].
    + intros m [Hm _]. rewrite Hnil in Hm. inversion Hm.
    + split.
      * intros Heq. left. done.
      * intros [[_ Heq]|[Hm _]]; [done|]. rewrite Hnil in Hm. inversion Hm.
    + intros env' w' Hf' Heq. rewrite getNextAvailablePort_ok by done. cbn [fst].
      by rewrite Heq.
Qed.

(** Deleting the only record, on port 2000. *)
Lemma next_port_after_deleting_max_witness :
  exists q,
    fst (getNextAvailablePort quiet
           (snd (DeleteContainer quiet new_ctx "A" one_running))) = Ok q /\
    q = 2000.
Proof.
  destruct (next_port_after_deleting_max quiet new_ctx
              (mkRow "A" "usbA" 2000 None) one_running) as (q & Hq & Hnil & _).
  - by left.
  - apply NoDup_singleton.
  - by apply max_port_is_max.
  - intros p Hp. apply list_elem_of_singleton in Hp. subst.
    unfold GoInt.in_range, GoInt.min_int, GoInt.max_int. simpl. lia.
  - vm_compute. find_event.
  - reflexivity.
  - exists q. split; [exact Hq|]. by apply Hnil.
Defined.

(** C10 (as stated) fails: after three creations and the deletion of the
    second record the store holds ports 2000 and 2002; deleting the record
    on port 2002 makes the allocator return 2001, not 2002. *)
Lemma deleted_maximum_is_not_returned :
  let w := snd (deletecontainer quiet (Some "id-6") new_ctx
                  (create_all quiet ["usbA"; "usbB"; "usbC"] empty_world)) in
  ports (containers w) = [2000; 2002] /\
  is_max_port (containers w) 2002 /\
  let w1 := snd (deletecontainer quiet (Some "id-12") new_ctx w) in
  ports (containers w1) = [2000] /\
  fst (getNextAvailablePort quiet w1) = Ok 2001 /\
  fst (getNextAvailablePort quiet w1) <> Ok 2002.
Proof.
  split; [reflexivity|]. split; [by apply max_port_is_max|].
  split; [reflexivity|]. split; [reflexivity|]. discriminate.
Qed.

(** ** Renaming *)

Lemma rename_rows_lookup name id rows i r :
  rows !! i = Some r ->
  rename_rows name id rows !! i =
    Some (if bool_decide (row_id r = id)
          then mkRow (row_id r) (row_device r) (row_port r) (Some name)
          else r).
Proof.
  intros H. unfold rename_rows.
  change (map ?f ?l) with (f <$> l). by rewrite list_lookup_fmap, H.
Qed.

Lemma rename_rows_keeps name id rows :
  ids (rename_rows name id rows) = ids rows /\
  map row_device (rename_rows name id rows) = map row_device rows /\
  ports (rename_rows name id rows) = ports rows.
Proof.
  unfold ids, ports, rename_rows. rewrite !map_map.
  repeat split; apply map_ext; intros r; by case_bool_decide.
Qed.

(** C9.  [rename(identity, new_display_name)] issues one call, the SQL
    update, and none to the runtime; the daemon and the directories are as
    before; identities, devices and ports of all records are as before;
    records of other identities are unchanged, and the record of the
    identity changes in its name only. *)
Theorem rename_changes_only_the_name env id name c w :
  let res := renamecontainer env (Some (id, name)) c w in
  let w' := snd res in
  (exists ok, events_since w w' = [(SqlUpdateName name id, ok)]) /\
  (forall ev, In ev (events_since w w') -> is_runtime_call (fst ev) = false) /\
  daemon w' = daemon w /\
  dirs w' = dirs w /\
  ids (containers w') = ids (containers w) /\
  map row_device (containers w') = map row_device (containers w) /\
  ports (containers w') = ports (containers w) /\
  (forall i r, containers w !! i = Some r -> row_id r <> id ->
     containers w' !! i = Some r) /\
  (forall i r, containers w !! i = Some r -> row_id r = id ->
     containers w' !! i = Some r \/
     containers w' !! i = Some (mkRow (row_id r) (row_device r) (row_port r) (Some name))) /\
  (In (SqlUpdateName name id, true) (events_since w w') ->
   forall i r, containers w !! i = Some r -> row_id r = id ->
     containers w' !! i = Some (mkRow (row_id r) (row_device r) (row_port r) (Some name))).
Proof.
  destruct w as [tbl ds dm tr].
  destruct (rename_rows_keeps name id tbl) as (Hids & Hdev & Hports).
  run_calls; norm_events.
  all: split; [eexists; reflexivity|].
  all: split; [intros ev [<-|[]]; reflexivity|].
  all: do 5 (split; [done|]).
  - split; [done|]. split; [by left|].
    intros [Hin|[]]. by simplify_eq.
  - split; [|split].
    + intros i r Hi Hne. rewrite (rename_rows_lookup _ _ _ _ _ Hi).
      by rewrite bool_decide_eq_false_2.
    + intros i r Hi He. right. rewrite (rename_rows_lookup _ _ _ _ _ Hi).
      by rewrite bool_decide_eq_true_2.
    + intros _ i r Hi He. rewrite (rename_rows_lookup _ _ _ _ _ Hi).
      by rewrite bool_decide_eq_true_2.
Qed.

(** Renaming [A] to [Printer-1]. *)
Lemma rename_changes_only_the_name_witness :
  containers (snd (renamecontainer quiet (Some ("A", "Printer-1")) new_ctx two_records))
    !! 0%nat = Some (mkRow "A" "usbA" 2000 (Some "Printer-1")).
Proof.
  apply (proj2 (proj2 (proj2 (proj2 (proj2 (proj2 (proj2 (proj2 (proj2
           (rename_changes_only_the_name quiet "A" "Printer-1" new_ctx two_records)))))))))
           ltac:(vm_compute; find_event) 0%nat (mkRow "A" "usbA" 2000 None));
    reflexivity.
Defined.

(** ** Restart *)

(** C7 (as amended).  For an identity without a persisted record,
    [restart(identity)] fails with the record-lookup error and performs no
    runtime mutation when the inspection finds no instance with the derived
    name; when the inspection finds one, the instance is restarted without
    the record store being consulted. *)
Theorem restart_without_record env configdir id st c w :
  find_row id (containers w) = None ->
  let name := "octoprint-" +:+ id in
  let res := restartcontainer env configdir (Some id) st c w in
  let evs := events_since w (snd res) in
  (In (DkInspect name, false) evs ->
     fst (fst res) = failed_with_status "Failed to get container info" c /\
     snd (fst res) = <[id := false]> st /\
     evs = [(DkInspect name, false); (SqlSelectDevicePort id, false)] /\
     daemon (snd res) = daemon w /\
     containers (snd res) = containers w) /\
  (In (DkInspect name, true) evs ->
     exists ok, evs = [(DkInspect name, true); (DkRestart name, ok)]) /\
  (In (DkInspect name, false) evs \/ In (DkInspect name, true) evs).
Proof.
  intros Hnone. destruct w as [tbl ds dm tr].
  run_calls; norm_events.
  all: try (simpl in Hnone; congruence).
  all: split; [intros Hin; cbn [In] in Hin; try (exfalso; intuition (by simplify_eq));
               repeat split; reflexivity|].
  all: split; [intros Hin; cbn [In] in Hin; try (exfalso; intuition (by simplify_eq));
               eexists; reflexivity|].
  all: first [solve [left; find_event] | solve [right; find_event]].
Qed.

(** Restarting an unknown identity on an empty daemon. *)
Lemma restart_without_record_witness :
  let res := restartcontainer quiet "/config" (Some "ghost") ∅ new_ctx empty_world in
  fst (fst res) = failed_with_status "Failed to get container info" new_ctx /\
  snd (fst res) = {["ghost" := false]} /\
  events_since empty_world (snd res) =
    [(DkInspect "octoprint-ghost", false); (SqlSelectDevicePort "ghost", false)] /\
  daemon (snd res) = ∅ /\
  containers (snd res) = [].
Proof.
  apply (proj1 (restart_without_record quiet "/config" "ghost" ∅ new_ctx empty_world
                  eq_refl)).
  vm_compute. find_event.
Defined.

(** C7 (as stated) fails: with an instance named after an identity that
    has no record, both revisions of the handler restart the instance and
    answer with success. *)
Lemma restart_of_orphan_instance_succeeds :
  find_row "ghost" (containers orphan_instance) = None /\
  (let res := restartcontainer quiet "/config" (Some "ghost") ∅ new_ctx orphan_instance in
   fst (fst res) = mkCtx 200 (Some [("error", VBool false); ("id", VString "ghost")]) /\
   events_since orphan_instance (snd res) =
     [(DkInspect "octoprint-ghost", true); (DkRestart "octoprint-ghost", true)] /\
   Running <$> daemon (snd res) !! "octoprint-ghost" = Some true) /\
  (let res := restartcontainer_v1 quiet (Some "ghost") new_ctx orphan_instance in
   fst res = mkCtx 200 (Some [("error", VBool false); ("id", VString "ghost")]) /\
   events_since orphan_instance (snd res) = [(DkRestart "octoprint-ghost", true)]).
Proof.
  split; [reflexivity|]. split.
  - split; [reflexivity|]. split; [reflexivity|]. vm_compute. reflexivity.
  - split; reflexivity.
Qed.

(** ** Reconciliation *)

(** Distinct identities have distinct instance names. *)
Lemma instance_name_inj id1 id2 :
  "octoprint-" +:+ id1 = "octoprint-" +:+ id2 -> id1 = id2.
Proof. apply (inj (String.app "octoprint-")). Qed.

(** What the loop body does for one row, seen from the world it starts in. *)
Lemma recreateRow_step env r errors w :
  let name := "octoprint-" +:+ row_id r in
  let path := "/dev/serial/by-id/" +:+ row_device r in
  let res := recreateRow env r errors w in
  let w' := snd res in
  let evs := events_since w w' in
  trace w' = trace w ++ evs /\
  containers w' = containers w /\
  (forall n, n <> name -> daemon w' !! n = daemon w !! n) /\
  (forall ev, In ev evs -> call_target (fst ev) = Some name \/ call_target (fst ev) = None) /\
  (forall ev, In ev evs -> fst ev <> SqlMaxPort) /\
  map fst (List.filter (fun ev => is_inspect (fst ev)) evs) = [DkInspect name] /\
  (exists errs, fst res = errors ++ errs /\
     length errs = length (List.filter failed_work evs) /\
     forall e, In e errs -> exists cause,
       e = Errorf ("failed to start existing container " +:+ name) cause \/
       e = Errorf ("failed to create container " +:+ name) cause) /\
  (forall c, daemon w !! name = Some c -> Running c = true ->
     In (DkInspect name, true) evs ->
     addressed_to name evs = [(DkInspect name, true)] /\ daemon w' !! name = Some c) /\
  (forall c, daemon w !! name = Some c -> Running c = false ->
     In (DkInspect name, true) evs ->
     exists ok, addressed_to name evs = [(DkInspect name, true); (DkStart name, ok)] /\
       daemon w' !! name = Some (mkContainer (config c) ok)) /\
  (daemon w !! name = None ->
     exists rest, addressed_to name evs = (DkInspect name, false) :: rest /\
       ((rest = [] /\ In (FsEvalSymlinks path, false) evs /\ daemon w' !! name = None) \/
        exists cfg, 
          HostPort cfg = pretty (row_port r) /\
          (exists t, symlink env t path = Some (PathOnHost cfg)) /\
          ((rest = [(DkCreate name cfg, false)] /\ daemon w' !! name = None) \/
           exists ok, rest = [(DkCreate name cfg, true); (DkStart name, ok)] /\
                      daemon w' !! name = Some (mkContainer cfg ok)))).
Proof.
  destruct w as [tbl ds dm tr].
  run_calls; norm_events.
  all: split; [reflexivity|].
  all: split; [reflexivity|].
  all: split; [intros n Hn; rewrite ?lookup_insert_ne by done; reflexivity|].
  all: split; [intros ev Hin; cbn [In] in Hin; intuition (subst; cbn; auto)|].
  all: split; [intros ev Hin; cbn [In] in Hin; intuition (subst; discriminate)|].
  all: split; [reflexivity|].
  all: split; [first [ exists []; split; [by rewrite app_nil_r|]; split; [reflexivity|];
                       intros e []
                     | eexists; split; [reflexivity|]; split; [reflexivity|];
                       intros e [<-|[]]; eauto ]|].
  all: split; [intros cc Heq Hr Hin; simplify_eq; cbn [In] in Hin;
               try (exfalso; intuition (simplify_eq; congruence)); try congruence;
               calc_addressed; done|].
  all: split; [intros cc Heq Hr Hin; simplify_eq; cbn [In] in Hin;
               try (exfalso; intuition (simplify_eq; congruence)); try congruence;
               eexists; (split; [calc_addressed; reflexivity|]);
               first [reflexivity | destruct cc; simpl in *; by subst]|].
  all: intros Hnone; try discriminate.
  all: eexists; (split; [calc_addressed; reflexivity|]).
  all: first
         [ left; split; [reflexivity|]; split; [solve [find_event]|reflexivity]
         | right; eexists;
           (split; [|split; [|first [ left; split; reflexivity
                                    | right; eexists; split; reflexivity ]]]);
           [reflexivity | eexists; eassumption] ].
Qed.

Lemma events_since_app w w' evs :
  trace w' = trace w ++ evs -> events_since w w' = evs.
Proof. intros H. unfold events_since. rewrite H. apply drop_app_length. Qed.

Lemma events_since_trans w w1 w2 :
  trace w1 = trace w ++ events_since w w1 ->
  trace w2 = trace w1 ++ events_since w1 w2 ->
  trace w2 = trace w ++ events_since w w2 /\
  events_since w w2 = events_since w w1 ++ events_since w1 w2.
Proof.
  intros H1 H2.
  assert (trace w2 = trace w ++ (events_since w w1 ++ events_since w1 w2)) as H
    by (by rewrite app_assoc, <- H1).
  rewrite (events_since_app _ _ _ H). done.
Qed.

Lemma addressed_to_app name evs1 evs2 :
  addressed_to name (evs1 ++ evs2) = addressed_to name evs1 ++ addressed_to name evs2.
Proof. unfold addressed_to. apply List.filter_app. Qed.

Lemma addressed_to_none name evs :
  (forall ev, In ev evs -> call_target (fst ev) <> Some name) ->
  addressed_to name evs = [].
Proof.
  induction evs as [|ev evs IH]; intros H; [done|].
  unfold addressed_to. cbn [List.filter].
  rewrite bool_decide_eq_false_2 by (apply H; by left).
  apply IH. intros ev' Hin. apply H. by right.
Qed.

Lemma addressed_to_In name evs ev :
  In ev (addressed_to name evs) <-> In ev evs /\ call_target (fst ev) = Some name.
Proof. unfold addressed_to. by rewrite filter_In, bool_decide_eq_true. Qed.

Lemma recreateLoop_cons env r rows errors w :
  recreateLoop env (r :: rows) errors w =
  recreateLoop env rows (fst (recreateRow env r errors w)) (snd (recreateRow env r errors w)).
Proof. cbn [recreateLoop]. by destruct (recreateRow env r errors w). Qed.

(** The pass over [rows], seen from the world it starts in. *)
Lemma recreateLoop_pass env rows errors w :
  let res := recreateLoop env rows errors w in
  let evs := events_since w (snd res) in
  trace (snd res) = trace w ++ evs /\
  containers (snd res) = containers w /\
  (forall n, (forall r, r ∈ rows -> n <> "octoprint-" +:+ row_id r) ->
     daemon (snd res) !! n = daemon w !! n) /\
  (forall ev, In ev evs ->
     call_target (fst ev) = None \/
     exists r, r ∈ rows /\ call_target (fst ev) = Some ("octoprint-" +:+ row_id r)) /\
  (forall ev, In ev evs -> fst ev <> SqlMaxPort) /\
  map fst (List.filter (fun ev => is_inspect (fst ev)) evs) =
    map (fun r => DkInspect ("octoprint-" +:+ row_id r)) rows /\
  (exists errs, fst res = errors ++ errs /\
     length errs = length (List.filter failed_work evs) /\
     forall e, In e errs -> exists r cause, r ∈ rows /\
       (e = Errorf ("failed to start existing container " +:+ "octoprint-" +:+ row_id r) cause \/
        e = Errorf ("failed to create container " +:+ "octoprint-" +:+ row_id r) cause)).
Proof.
  revert errors w. induction rows as [|r rows IH]; intros errors w.
  - cbn [recreateLoop snd fst]. unfold events_since. rewrite drop_all.
    repeat split; try done; try (by rewrite app_nil_r).
    exists []. by rewrite app_nil_r.
  - cbv zeta. rewrite recreateLoop_cons.
    destruct (recreateRow_step env r errors w)
      as (Ht & Hc & Hd & Htg & Hmp & Hins & (errs1 & He1 & Hl1 & Hf1) & _).
    set (w1 := snd (recreateRow env r errors w)) in *.
    set (errors1 := fst (recreateRow env r errors w)) in *.
    destruct (IH errors1 w1)
      as (Ht' & Hc' & Hd' & Htg' & Hmp' & Hins' & (errs2 & He2 & Hl2 & Hf2)).
    set (w2 := snd (recreateLoop env rows errors1 w1)) in *.
    destruct (events_since_trans w w1 w2 Ht Ht') as [Htr Hev].
    split; [done|]. split; [congruence|]. rewrite Hev.
    split; [|split; [|split; [|split]]].
    + intros n Hn. rewrite Hd', Hd; [done| |].
      * apply Hn. by left.
      * intros r' Hr'. apply Hn. by right.
    + intros ev [Hin|Hin]%in_app_or.
      * destruct (Htg ev Hin) as [H|H]; [|by left].
        right. exists r. split; [by left|done].
      * destruct (Htg' ev Hin) as [H|(r' & Hr' & H)]; [by left|].
        right. exists r'. split; [by right|done].
    + intros ev [Hin|Hin]%in_app_or; eauto.
    + rewrite List.filter_app, List.map_app. rewrite Hins, Hins'. done.
    + exists (errs1 ++ errs2). split; [|split].
      * rewrite He2, He1. by rewrite app_assoc.
      * rewrite List.filter_app, !length_app. congruence.
      * intros e [Hin|Hin]%in_app_or.
        -- destruct (Hf1 e Hin) as [cause H]. exists r, cause. split; [by left|done].
        -- destruct (Hf2 e Hin) as (r' & cause & Hr' & H). exists r', cause.
           split; [by right|done].
Qed.

(** The row [r] of a table with distinct identities is worked on once, in a
    world where its instance is as it was at the start; what the pass
    issues for the instance and leaves of it is what that step does. *)
Lemma recreateLoop_focus env rows r errors w :
  NoDup (ids rows) -> r ∈ rows ->
  let name := "octoprint-" +:+ row_id r in
  let w' := snd (recreateLoop env rows errors w) in
  exists errors0 w0,
    let w1 := snd (recreateRow env r errors0 w0) in
    daemon w0 !! name = daemon w !! name /\
    daemon w' !! name = daemon w1 !! name /\
    addressed_to name (events_since w w') = addressed_to name (events_since w0 w1) /\
    (forall ev, In ev (events_since w0 w1) -> In ev (events_since w w')).
Proof.
  revert errors w. induction rows as [|r0 rows IH]; intros errors w Hnd Hr.
  - inversion Hr.
  - cbv zeta. rewrite recreateLoop_cons.
    unfold ids in Hnd. cbn [map] in Hnd. apply NoDup_cons in Hnd as [Hfresh Hnd].
    destruct (recreateRow_step env r0 errors w) as (Ht & _ & Hd & Htg & _).
    set (w1 := snd (recreateRow env r0 errors w)) in *.
    set (errors1 := fst (recreateRow env r0 errors w)) in *.
    destruct (recreateLoop_pass env rows errors1 w1) as (Ht' & _ & Hd' & Htg' & _).
    set (w2 := snd (recreateLoop env rows errors1 w1)) in *.
    destruct (events_since_trans w w1 w2 Ht Ht') as [_ Hev].
    assert (forall r', r' ∈ rows -> row_id r' <> row_id r0) as Hother.
    { intros r' Hr' Heq. apply Hfresh. rewrite <- Heq. apply list_elem_of_fmap. eauto. }
    apply elem_of_cons in Hr as [->|Hr].
    + exists errors, w. fold w1. split; [done|]. split; [|split].
      * apply Hd'. intros r' Hr' Heq%instance_name_inj. by apply (Hother r').
      * rewrite Hev, addressed_to_app, (addressed_to_none _ (events_since w1 w2)).
        { by rewrite app_nil_r. }
        intros ev Hin Htarget.
        destruct (Htg' ev Hin) as [H|(r' & Hr' & H)]; [congruence|].
        rewrite H in Htarget.
        assert ("octoprint-" +:+ row_id r' = "octoprint-" +:+ row_id r0) as Heq
          by congruence.
        apply instance_name_inj in Heq. by apply (Hother r').
      * intros ev Hin. rewrite Hev. apply in_or_app. by left.
    + destruct (IH errors1 w1 Hnd Hr) as (errors0 & w0 & H0 & H1 & H2 & H3).
      fold w2 in H1, H2, H3.
      assert ("octoprint-" +:+ row_id r <> "octoprint-" +:+ row_id r0) as Hne.
      { intros Heq%instance_name_inj. by apply (Hother r). }
      exists errors0, w0. split; [|split; [|split]].
      * rewrite H0. by apply Hd.
      * done.
      * rewrite Hev, addressed_to_app, (addressed_to_none _ (events_since w w1)).
        { done. }
        intros ev Hin Htarget. destruct (Htg ev Hin) as [H|H]; congruence.
      * intros ev Hin. rewrite Hev. apply in_or_app. right. by apply H3.
Qed.

Lemma RecreateAllContainers_ok env w :
  fault env (now w) SqlSelectAll = false ->
  let w0 := log_call SqlSelectAll true w in
  let loop := recreateLoop env (containers w) [] w0 in
  RecreateAllContainers env w =
    (match fst loop with
     | [] => Ok tt
     | _ :: _ => Err (ErrorfAll "encountered errors while starting containers" (fst loop))
     end, snd loop) /\
  trace w0 = trace w ++ [(SqlSelectAll, true)] /\
  containers w0 = containers w /\
  daemon w0 = daemon w.
Proof.
  intros Hf. unfold RecreateAllContainers, bind, wrapErr, QueryAll, perform.
  rewrite Hf. cbv zeta.
  destruct (recreateLoop env (containers w) [] (log_call SqlSelectAll true w))
    as [errs w'] eqn:E.
  split; [|done]. destruct errs; reflexivity.
Qed.

(** A list is not itself with one more element. *)
Lemma snoc_not_self {A} (l : list A) (x : A) : l ++ [x] <> l.
Proof.
  intros H. apply (f_equal length) in H. rewrite length_app in H.
  cbn [length] in H. lia.
Qed.

(** The loop body writes to neither the store nor the filesystem, keeps
    every instance with its configuration and never stops one; when it
    appends no error, the instance of its row is running. *)
Lemma recreateRow_keeps env r errors w :
  let name := "octoprint-" +:+ row_id r in
  let res := recreateRow env r errors w in
  dirs (snd res) = dirs w /\
  (forall ev, In ev (events_since w (snd res)) -> is_reconcile_call (fst ev) = true) /\
  (forall n inst, daemon w !! n = Some inst ->
     exists inst', daemon (snd res) !! n = Some inst' /\
       config inst' = config inst /\
       (Running inst = true -> inst' = inst)) /\
  (fst res = errors ->
     exists inst, daemon (snd res) !! name = Some inst /\ Running inst = true).
Proof.
  destruct w as [tbl ds dm tr].
  run_calls; norm_events.
  all: split; [reflexivity|].
  all: split; [intros ev Hin; in_cases Hin; reflexivity|].
  all: split;
    [intros n inst Hn; rewrite ?insert_insert_eq;
     destruct (decide (n = "octoprint-" +:+ row_id r)) as [->|Hne];
     rewrite ?lookup_insert_eq, ?lookup_insert_ne by done;
     simplify_eq; eexists; (split; [first [eassumption|reflexivity]|]);
     (split; [reflexivity|]);
     first [done | intros Hr; cbn [Running] in *; congruence]|].
  all: intros He; try (by apply snoc_not_self in He); try discriminate.
  all: eexists; split; [reflexivity|]; first [assumption|reflexivity|congruence].
Qed.

(** The same for the whole loop. *)
Lemma recreateLoop_keeps env rows errors w :
  let res := recreateLoop env rows errors w in
  dirs (snd res) = dirs w /\
  (forall ev, In ev (events_since w (snd res)) -> is_reconcile_call (fst ev) = true) /\
  (forall n inst, daemon w !! n = Some inst ->
     exists inst', daemon (snd res) !! n = Some inst' /\
       config inst' = config inst /\
       (Running inst = true -> inst' = inst)) /\
  (fst res = errors ->
     forall r, r ∈ rows ->
       exists inst, daemon (snd res) !! ("octoprint-" +:+ row_id r) = Some inst /\
                    Running inst = true).
Proof.
  revert errors w. induction rows as [|r rows IH]; intros errors w.
  - cbn [recreateLoop snd fst]. unfold events_since. rewrite drop_all.
    split; [done|]. split; [intros ev []|]. split; [eauto|].
    intros _ r Hr. inversion Hr.
  - cbv zeta. rewrite recreateLoop_cons.
    destruct (recreateRow_step env r errors w) as (Ht & _ & _ & _ & _ & _ & He1 & _).
    destruct He1 as (errs1 & He1 & _).
    destruct (recreateRow_keeps env r errors w) as (Hd & Hc & Hk & Hok).
    set (w1 := snd (recreateRow env r errors w)) in *.
    set (errors1 := fst (recreateRow env r errors w)) in *.
    destruct (recreateLoop_pass env rows errors1 w1) as (Ht' & _ & _ & _ & _ & _ & He2).
    destruct He2 as (errs2 & He2 & _).
    destruct (IH errors1 w1) as (Hd' & Hc' & Hk' & Hok').
    set (w2 := snd (recreateLoop env rows errors1 w1)) in *.
    destruct (events_since_trans w w1 w2 Ht Ht') as [_ Hev].
    split; [congruence|]. split; [|split].
    + intros ev Hin. rewrite Hev in Hin. apply in_app_or in Hin as [Hin|Hin]; eauto.
    + intros n inst Hn.
      destruct (Hk n inst Hn) as (inst1 & Hn1 & Hcfg1 & Hrun1).
      destruct (Hk' n inst1 Hn1) as (inst2 & Hn2 & Hcfg2 & Hrun2).
      exists inst2. split; [done|]. split; [congruence|].
      intros Hr. rewrite <- (Hrun1 Hr). apply Hrun2. by rewrite (Hrun1 Hr).
    + intros Hall.
      assert (errs1 = [] /\ errs2 = []) as [-> ->].
      { rewrite He2, He1, <- app_assoc in Hall.
        apply (f_equal length) in Hall. rewrite !length_app in Hall.
        destruct errs1, errs2; cbn [length] in Hall; try lia. done. }
      rewrite app_nil_r in He1, He2.
      intros r' [->|Hr']%elem_of_cons.
      * destruct (Hok He1) as (inst & Hn & Hrun).
        destruct (Hk' _ inst Hn) as (inst' & Hn' & _ & Hsame).
        exists inst. split; [|done]. by rewrite <- (Hsame Hrun).
      * apply Hok'; [|done]. by rewrite He2.
Qed.

(** The loop body on a row whose instance is missing, when nothing it
    needs fails. *)
Lemma recreateRow_heals env r errors w usb :
  let name := "octoprint-" +:+ row_id r in
  let path := "/dev/serial/by-id/" +:+ row_device r in
  daemon w !! name = None ->
  (forall t, symlink env t path = Some usb) ->
  (forall t, fault env t (FsEvalSymlinks path) = false) ->
  (forall t cfg, fault env t (DkCreate name cfg) = false) ->
  (forall t, fault env t (DkStart name) = false) ->
  daemon (snd (recreateRow env r errors w)) !! name =
    Some (mkContainer (octoprint_config (row_id r) (pretty (row_port r)) usb) true).
Proof.
  intros name path Hnone Hlink Hf1 Hf2 Hf3. subst name path.
  unfold recreateRow, ContainerInspect, perform.
  assert (forall w0, daemon w0 = daemon w ->
            daemon (snd (createOctoPrintContainer env (row_id r) (row_device r)
                           (row_port r) w0)) !! ("octoprint-" +:+ row_id r) =
            Some (mkContainer (octoprint_config (row_id r) (pretty (row_port r)) usb)
                    true)) as Hcreate.
  { intros w0 Hw0. unfold createOctoPrintContainer, bind, wrapErr, ret, EvalSymlinks,
      ContainerCreate, ContainerStart, set_running, perform.
    rewrite Hf1, Hlink. cbn [log_call now daemon trace fst snd containers dirs].
    rewrite Hf2, Hw0, Hnone.
    cbn [log_call set_daemon now daemon trace fst snd containers dirs].
    rewrite Hf3, lookup_insert_eq.
    cbn [log_call set_daemon now daemon trace fst snd containers dirs config].
    by rewrite insert_insert_eq, lookup_insert_eq. }
  rewrite Hnone.
  pose proof (Hcreate (log_call (DkInspect ("octoprint-" +:+ row_id r)) false w)
                eq_refl) as Hc.
  destruct (fault env (now w) (DkInspect ("octoprint-" +:+ row_id r)));
    destruct (createOctoPrintContainer env _ _ _ _) as [[?|?] ?];
    cbn [snd] in *; done.
Qed.

(** The identities of [two_records] are distinct. *)
Lemma two_records_ids_distinct : NoDup (ids (containers two_records)).
Proof. apply (bool_decide_unpack _). vm_compute. exact I. Defined.

(** *** The pass, record by record *)

(** An element of a segment of a list, by its position in the list. *)
Lemma lookup_segment {A} (pre seg post : list A) (k : nat) (x : A) :
  seg !! k = Some x -> (pre ++ seg ++ post) !! (k + length pre)%nat = Some x.
Proof.
  intros H. rewrite lookup_app_r by lia.
  replace (k + length pre - length pre)%nat with k by lia.
  by apply lookup_app_l_Some.
Qed.

(** The loop body, call by call: what it issues and what it leaves of the
    instance of its row are fixed by what the daemon holds for the row and
    by what the environment does to each call at its moment. *)
Lemma recreateRow_cases env r errors w :
  let name := "octoprint-" +:+ row_id r in
  let path := "/dev/serial/by-id/" +:+ row_device r in
  let t := now w in
  let w' := snd (recreateRow env r errors w) in
  let evs := events_since w w' in
  (forall c, daemon w !! name = Some c ->
     (exists rest, evs = (DkInspect name, negb (fault env t (DkInspect name))) :: rest) /\
     (fault env t (DkInspect name) = false ->
        if Running c
        then evs = [(DkInspect name, true)] /\ daemon w' !! name = Some c
        else
          let ok := negb (fault env (S t) (DkStart name)) in
          evs = [(DkInspect name, true); (DkStart name, ok)] /\
          daemon w' !! name = Some (mkContainer (config c) ok))) /\
  (daemon w !! name = None ->
     match (if fault env (S t) (FsEvalSymlinks path)
            then None else symlink env (S t) path) with
     | None =>
         evs = [(DkInspect name, false); (FsEvalSymlinks path, false)] /\
         daemon w' !! name = None
     | Some usb =>
         let cfg := octoprint_config (row_id r) (pretty (row_port r)) usb in
         if fault env (S (S t)) (DkCreate name cfg)
         then evs = [(DkInspect name, false); (FsEvalSymlinks path, true);
                     (DkCreate name cfg, false)] /\
              daemon w' !! name = None
         else
           let ok := negb (fault env (S (S (S t))) (DkStart name)) in
           evs = [(DkInspect name, false); (FsEvalSymlinks path, true);
                  (DkCreate name cfg, true); (DkStart name, ok)] /\
           daemon w' !! name = Some (mkContainer cfg ok)
     end).
Proof.
  destruct w as [tbl ds dm tr].
  unfold octoprint_config. cbv zeta. split.
  - intros c Hc. unfold_calls. simpl_world. rewrite !Hc.
    run_timed; norm_events.
    all: simplify_eq.
    all: split; [eexists; reflexivity|]; intros Hfi; simplify_eq.
    all: cbn [negb].
    all: rewrite ?insert_insert_eq, ?lookup_insert_eq.
    all: try (split; [reflexivity|]); try done.
    all: destruct c as [cfg b]; cbn [Running config] in *; subst; reflexivity.
  - intros Hc. unfold_calls. simpl_world. rewrite !Hc.
    run_timed; norm_events.
    all: simplify_eq.
    all: cbn [negb].
    all: rewrite ?insert_insert_eq, ?lookup_insert_eq.
    all: try (split; [reflexivity|]); try done.
Qed.

(** The row [r] of a table with distinct identities has one turn in the
    loop, in a world where its instance is as it was at the start; the
    events of that turn are a segment of the trace of the pass, and what the
    pass issues for the instance and leaves of it is what the turn does. *)
Lemma recreateLoop_turn env rows r errors w :
  NoDup (ids rows) -> r ∈ rows ->
  let name := "octoprint-" +:+ row_id r in
  let w' := snd (recreateLoop env rows errors w) in
  exists errors0 w0 later,
    let w1 := snd (recreateRow env r errors0 w0) in
    (now w <= now w0)%nat /\
    trace w' = trace w0 ++ events_since w0 w1 ++ later /\
    daemon w0 !! name = daemon w !! name /\
    daemon w' !! name = daemon w1 !! name /\
    addressed_to name (events_since w w') = addressed_to name (events_since w0 w1).
Proof.
  revert errors w. induction rows as [|r0 rows IH]; intros errors w Hnd Hr.
  - inversion Hr.
  - cbv zeta. rewrite recreateLoop_cons.
    unfold ids in Hnd. cbn [map] in Hnd. apply NoDup_cons in Hnd as [Hfresh Hnd].
    destruct (recreateRow_step env r0 errors w) as (Ht & _ & Hd & Htg & _).
    set (w1 := snd (recreateRow env r0 errors w)) in *.
    set (errors1 := fst (recreateRow env r0 errors w)) in *.
    destruct (recreateLoop_pass env rows errors1 w1) as (Ht' & _ & Hd' & Htg' & _).
    set (w2 := snd (recreateLoop env rows errors1 w1)) in *.
    destruct (events_since_trans w w1 w2 Ht Ht') as [_ Hev].
    assert (forall r', r' ∈ rows -> row_id r' <> row_id r0) as Hother.
    { intros r' Hr' Heq. apply Hfresh. rewrite <- Heq. apply list_elem_of_fmap. eauto. }
    apply elem_of_cons in Hr as [->|Hr].
    + exists errors, w, (events_since w1 w2). fold w1.
      split; [done|]. split; [by rewrite Ht', Ht, <- app_assoc|].
      split; [done|]. split.
      * apply Hd'. intros r' Hr' Heq%instance_name_inj. by apply (Hother r').
      * rewrite Hev, addressed_to_app, (addressed_to_none _ (events_since w1 w2)).
        { by rewrite app_nil_r. }
        intros ev Hin Htarget.
        destruct (Htg' ev Hin) as [H|(r' & Hr' & H)]; [congruence|].
        rewrite H in Htarget.
        assert ("octoprint-" +:+ row_id r' = "octoprint-" +:+ row_id r0) as Heq
          by congruence.
        apply instance_name_inj in Heq. by apply (Hother r').
    + destruct (IH errors1 w1 Hnd Hr) as (errors0 & w0 & later & Hle & Htr & H0 & H1 & H2).
      fold w2 in Htr, H1, H2.
      assert ("octoprint-" +:+ row_id r <> "octoprint-" +:+ row_id r0) as Hne.
      { intros Heq%instance_name_inj. by apply (Hother r). }
      exists errors0, w0, later. split; [|split; [|split; [|split]]].
      * unfold now in *. rewrite Ht, length_app in Hle. lia.
      * done.
      * rewrite H0. by apply Hd.
      * done.
      * rewrite Hev, addressed_to_app, (addressed_to_none _ (events_since w w1)).
        { done. }
        intros ev Hin Htarget. destruct (Htg ev Hin) as [H|H]; congruence.
Qed.

(** The loop body on a row whose instance exists, when neither the
    inspection nor the start fails. *)
Lemma recreateRow_starts env r errors w c :
  let name := "octoprint-" +:+ row_id r in
  daemon w !! name = Some c ->
  (forall t, fault env t (DkInspect name) = false) ->
  (forall t, fault env t (DkStart name) = false) ->
  daemon (snd (recreateRow env r errors w)) !! name = Some (mkContainer (config c) true).
Proof.
  intros name Hc Hfi Hfs.
  destruct (recreateRow_cases env r errors w) as [Hex _].
  destruct (Hex c Hc) as [_ Himp]. specialize (Himp (Hfi _)).
  fold name in Himp. rewrite Hfs in Himp.
  destruct c as [cfg b]. cbn [Running config] in *.
  destruct b; by destruct Himp as [_ ->].
Qed.

(** The loop body appends at most one error; the error names the instance
    of its row and wraps a call of the work on the row that has failed. *)
Lemma recreateRow_reports env r errors w :
  let name := "octoprint-" +:+ row_id r in
  let path := "/dev/serial/by-id/" +:+ row_device r in
  let res := recreateRow env r errors w in
  let evs := events_since w (snd res) in
  fst res = errors \/
  exists cause c,
    (fst res = errors ++ [Errorf ("failed to start existing container " +:+ name) cause] /\
     c = DkStart name \/
     fst res = errors ++ [Errorf ("failed to create container " +:+ name) cause] /\
     (c = FsEvalSymlinks path \/ (exists cfg, c = DkCreate name cfg) \/ c = DkStart name)) /\
    root_call cause = Some c /\
    In (c, false) evs.
Proof.
  destruct w as [tbl ds dm tr].
  run_calls; norm_events.
  all: match goal with
       | |- ?e = ?e \/ _ => left; reflexivity
       | |- ?e ++ [Errorf _ ?cause] = ?e \/ _ =>
           right; exists cause;
           match eval cbn in (root_call cause) with Some ?c => exists c end
       end.
  all: split; [|split; [reflexivity|solve [find_event]]].
  all: first [ left; split; reflexivity
             | right; split; [reflexivity|]; eauto ].
Qed.

(** After the loop, every row has its instance running or an error that
    names it among the collected ones; every error collected on the way
    names the instance of a row and wraps a failed call of the work on that
    row. *)
Lemma recreateLoop_reports env rows errors w :
  let res := recreateLoop env rows errors w in
  let evs := events_since w (snd res) in
  (forall r, r ∈ rows ->
     let name := "octoprint-" +:+ row_id r in
     (exists inst, daemon (snd res) !! name = Some inst /\ Running inst = true) \/
     (exists cause,
        In (Errorf ("failed to start existing container " +:+ name) cause) (fst res) \/
        In (Errorf ("failed to create container " +:+ name) cause) (fst res))) /\
  exists errs, fst res = errors ++ errs /\
    forall e, In e errs -> exists r cause c, r ∈ rows /\
      let name := "octoprint-" +:+ row_id r in
      let path := "/dev/serial/by-id/" +:+ row_device r in
      (e = Errorf ("failed to start existing container " +:+ name) cause /\
       c = DkStart name \/
       e = Errorf ("failed to create container " +:+ name) cause /\
       (c = FsEvalSymlinks path \/ (exists cfg, c = DkCreate name cfg) \/ c = DkStart name)) /\
      root_call cause = Some c /\
      In (c, false) evs.
Proof.
  revert errors w. induction rows as [|r0 rows IH]; intros errors w.
  - cbn [recreateLoop snd fst]. split; [intros r Hr; inversion Hr|].
    exists []. split; [by rewrite app_nil_r|]. intros e [].
  - cbv zeta. rewrite recreateLoop_cons.
    destruct (recreateRow_step env r0 errors w) as (Ht & _).
    destruct (recreateRow_keeps env r0 errors w) as (_ & _ & _ & Hok).
    pose proof (recreateRow_reports env r0 errors w) as Hrep.
    cbv zeta in Hrep.
    set (w1 := snd (recreateRow env r0 errors w)) in *.
    remember (fst (recreateRow env r0 errors w)) as errors1 eqn:Herrors1.
    destruct (recreateLoop_pass env rows errors1 w1) as (Ht' & _).
    destruct (recreateLoop_keeps env rows errors1 w1) as (_ & _ & Hk' & _).
    destruct (IH errors1 w1) as (Hall & errs2 & He2 & Hfrom2).
    set (w2 := snd (recreateLoop env rows errors1 w1)) in *.
    destruct (events_since_trans w w1 w2 Ht Ht') as [_ Hev].
    rewrite Hev. split.
    + intros r [->|Hr]%elem_of_cons; [|by apply Hall].
      destruct Hrep as [Hnone|(cause & c & Hone & _)].
      * left. destruct (Hok Hnone) as (inst & Hn & Hrun).
        destruct (Hk' _ inst Hn) as (inst' & Hn' & _ & Hsame).
        exists inst. split; [|done]. by rewrite <- (Hsame Hrun).
      * right. exists cause. rewrite He2.
        destruct Hone as [[Hone _]|[Hone _]]; [left|right]; rewrite Hone;
          apply in_or_app; left; apply in_or_app; right; by left.
    + destruct Hrep as [Hnone|(cause & c & Hone & Hroot & Hin)].
      * exists errs2. split; [by rewrite He2, Hnone|].
        intros e He. destruct (Hfrom2 e He) as (r & cause & c & Hr & Hcase & Hroot & Hin).
        exists r, cause, c. split; [by right|]. split; [exact Hcase|].
        split; [done|]. apply in_or_app. by right.
      * assert (exists e1, fst (recreateRow env r0 errors w) = errors ++ [e1] /\
                  (e1 = Errorf ("failed to start existing container " +:+
                                "octoprint-" +:+ row_id r0) cause /\
                   c = DkStart ("octoprint-" +:+ row_id r0) \/
                   e1 = Errorf ("failed to create container " +:+
                                "octoprint-" +:+ row_id r0) cause /\
                   (c = FsEvalSymlinks ("/dev/serial/by-id/" +:+ row_device r0) \/
                    (exists cfg, c = DkCreate ("octoprint-" +:+ row_id r0) cfg) \/
                    c = DkStart ("octoprint-" +:+ row_id r0))))
          as (e1 & He1 & Hcase1).
        { rewrite <- Herrors1.
          destruct Hone as [[Hone Hc]|[Hone Hc]]; eexists; (split; [exact Hone|]);
            [left|right]; done. }
        exists (e1 :: errs2). split.
        { rewrite He2, Herrors1, He1. by rewrite <- app_assoc. }
        intros e [<-|He].
        -- exists r0, cause, c. split; [by left|].
           split; [exact Hcase1|]. split; [done|]. apply in_or_app. by left.
        -- destruct (Hfrom2 e He) as (r & cause' & c' & Hr & Hcase & Hroot' & Hin').
           exists r, cause', c'. split; [by right|]. split; [exact Hcase|].
           split; [done|]. apply in_or_app. by right.
Qed.

(** C4.  For every record of a store with distinct identities,
    [reconcile_all] inspects the instance of the derived name at one moment
    [t] of the pass and does with it what the inspection observes; every
    call has the outcome the environment gives it at its moment.  An
    instance observed running gets the inspection and nothing else, and is
    left as it was.  An instance observed stopped is started at the next
    call; no creation is issued, and the instance is running afterwards
    exactly when the start did not fail.  With no instance, the inspection
    fails and the device symlink of the record is resolved; when that fails
    nothing more is done, otherwise an instance is created with the host port
    and the resolved device of the record and then started, and it is there
    afterwards exactly when the creation did not fail, running exactly when
    the start did not fail either.  The pass never asks the allocator for a
    port. *)
Theorem reconcile_case_analysis env w r :
  fault env (now w) SqlSelectAll = false ->
  NoDup (ids (containers w)) ->
  r ∈ containers w ->
  let name := "octoprint-" +:+ row_id r in
  let path := "/dev/serial/by-id/" +:+ row_device r in
  let w' := snd (RecreateAllContainers env w) in
  let evs := events_since w w' in
  let mine := addressed_to name evs in
  exists t : nat,
    (now w < t)%nat /\
    (forall c, daemon w !! name = Some c ->
       trace w' !! t = Some (DkInspect name, negb (fault env t (DkInspect name))) /\
       (fault env t (DkInspect name) = false ->
          if Running c
          then mine = [(DkInspect name, true)] /\ daemon w' !! name = Some c
          else
            let ok := negb (fault env (S t) (DkStart name)) in
            trace w' !! S t = Some (DkStart name, ok) /\
            mine = [(DkInspect name, true); (DkStart name, ok)] /\
            daemon w' !! name = Some (mkContainer (config c) ok))) /\
    (daemon w !! name = None ->
       trace w' !! t = Some (DkInspect name, false) /\
       match (if fault env (S t) (FsEvalSymlinks path)
              then None else symlink env (S t) path) with
       | None =>
           trace w' !! S t = Some (FsEvalSymlinks path, false) /\
           mine = [(DkInspect name, false)] /\
           daemon w' !! name = None
       | Some usb =>
           let cfg := octoprint_config (row_id r) (pretty (row_port r)) usb in
           trace w' !! S t = Some (FsEvalSymlinks path, true) /\
           if fault env (S (S t)) (DkCreate name cfg)
           then mine = [(DkInspect name, false); (DkCreate name cfg, false)] /\
                daemon w' !! name = None
           else
             let ok := negb (fault env (S (S (S t))) (DkStart name)) in
             mine = [(DkInspect name, false); (DkCreate name cfg, true);
                     (DkStart name, ok)] /\
             daemon w' !! name = Some (mkContainer cfg ok)
       end) /\
    (forall ev, In ev evs -> fst ev <> SqlMaxPort).
Proof.
  intros Hf Hnd Hr name path.
  destruct (RecreateAllContainers_ok env w Hf) as (Hrun & Ht0 & _ & Hd0).
  cbv zeta in *. rewrite Hrun. cbn [snd].
  set (wq := log_call SqlSelectAll true w) in *.
  destruct (recreateLoop_pass env (containers w) [] wq) as (Ht & _ & _ & _ & Hmp & _).
  destruct (recreateLoop_turn env (containers w) r [] wq Hnd Hr)
    as (errors0 & w0 & later & Hle & Htr & Hb & Ha & Hmine).
  set (w' := snd (recreateLoop env (containers w) [] wq)) in *.
  fold name in Hb, Ha, Hmine.
  assert (events_since w w' = (SqlSelectAll, true) :: events_since wq w') as Hev.
  { apply events_since_app. rewrite Ht, Ht0. by rewrite <- app_assoc. }
  assert (addressed_to name (events_since w w')
          = addressed_to name (events_since w0 (snd (recreateRow env r errors0 w0))))
    as Hmine'.
  { rewrite Hev. unfold addressed_to at 1. cbn [List.filter call_target fst].
    rewrite bool_decide_eq_false_2 by discriminate. exact Hmine. }
  assert (forall k ev, events_since w0 (snd (recreateRow env r errors0 w0)) !! k = Some ev ->
                       trace w' !! (k + now w0)%nat = Some ev) as Hat.
  { intros k ev Hk. rewrite Htr. by apply lookup_segment. }
  destruct (recreateRow_cases env r errors0 w0) as [Hex Habs].
  fold name path in Hex, Habs.
  rewrite Hmine', Ha. rewrite Hd0 in Hb.
  exists (now w0). split; [|split; [|split]].
  - unfold now in *. subst wq. cbn [log_call trace] in Hle.
    rewrite length_app in Hle. cbn [length] in Hle. lia.
  - intros c Hc. rewrite <- Hb in Hc. destruct (Hex c Hc) as [(rest & Hhead) Himp].
    split; [apply (Hat 0%nat); by rewrite Hhead|].
    intros Hfi. specialize (Himp Hfi). destruct (Running c).
    + destruct Himp as [-> ->]. split; [|done]. calc_addressed; done.
    + destruct Himp as [Hevs ->]. rewrite Hevs in *.
      split; [by apply (Hat 1%nat)|]. split; [|done]. calc_addressed; done.
  - intros Hc. rewrite <- Hb in Hc. specialize (Habs Hc).
    destruct (fault env (S (now w0)) (FsEvalSymlinks path));
      [|destruct (symlink env (S (now w0)) path) as [usb|]].
    + destruct Habs as [Hevs ->]. rewrite Hevs in *.
      split; [by apply (Hat 0%nat)|]. split; [by apply (Hat 1%nat)|].
      split; [|done]. calc_addressed; done.
    + cbv zeta in *.
      destruct (fault env (S (S (now w0)))
                  (DkCreate name (octoprint_config (row_id r) (pretty (row_port r)) usb)));
        destruct Habs as [Hevs ->]; rewrite Hevs in *.
      * split; [by apply (Hat 0%nat)|]. split; [by apply (Hat 1%nat)|].
        split; [|done]. calc_addressed; done.
      * split; [by apply (Hat 0%nat)|]. split; [by apply (Hat 1%nat)|].
        split; [|done]. calc_addressed; done.
    + destruct Habs as [Hevs ->]. rewrite Hevs in *.
      split; [by apply (Hat 0%nat)|]. split; [by apply (Hat 1%nat)|].
      split; [|done]. calc_addressed; done.
  - intros ev Hin. rewrite Hev in Hin. destruct Hin as [<-|Hin]; [discriminate|].
    by apply Hmp.
Qed.

(** The stopped instance of [B] is started, not recreated, and runs; the
    missing instance of [A] is created on the port and with the device of its
    record, then started. *)
Lemma reconcile_case_analysis_witness :
  let w' := snd (RecreateAllContainers quiet two_records) in
  (addressed_to "octoprint-B" (events_since two_records w') =
     [(DkInspect "octoprint-B", true); (DkStart "octoprint-B", true)] /\
   daemon w' !! "octoprint-B" =
     Some (mkContainer (octoprint_config "B" "2001" "/dev/ttyUSB1") true)) /\
  (addressed_to "octoprint-A" (events_since two_records w') =
     [(DkInspect "octoprint-A", false);
      (DkCreate "octoprint-A" (octoprint_config "A" "2000" "/dev/ttyUSB0"), true);
      (DkStart "octoprint-A", true)] /\
   daemon w' !! "octoprint-A" =
     Some (mkContainer (octoprint_config "A" "2000" "/dev/ttyUSB0") true)).
Proof.
  split.
  - destruct (reconcile_case_analysis quiet two_records (mkRow "B" "usbB" 2001 None)
                eq_refl two_records_ids_distinct ltac:(right; left))
      as (t & _ & Hstopped & _ & _).
    assert (daemon two_records !! "octoprint-B" =
            Some (mkContainer (octoprint_config "B" "2001" "/dev/ttyUSB1") false)) as Hc
      by (vm_compute; reflexivity).
    destruct (Hstopped _ Hc) as [_ Himp].
    exact (proj2 (Himp eq_refl)).
  - destruct (reconcile_case_analysis quiet two_records (mkRow "A" "usbA" 2000 None)
                eq_refl two_records_ids_distinct ltac:(left))
      as (t & _ & _ & Habsent & _).
    assert (daemon two_records !! "octoprint-A" = None) as Hc
      by (vm_compute; reflexivity).
    destruct (Habsent Hc) as [_ Hwork].
    exact (proj2 Hwork).
Defined.

(** C8.  When the query for the records succeeds, [reconcile_all] works on
    every record, whatever fails for the others.  It inspects the instance
    of every record, once and in store order.  In a store with distinct
    identities, a record whose instance exists has it running afterwards
    whenever the inspection and the start of that instance do not fail, and a
    record whose instance is missing has it created with its port and device,
    and running, whenever the resolution, the creation and the start for that
    record do not fail.  The failures are collected: one error per failed
    step, each naming the instance of a record and wrapping a call of the
    work on that record that has failed; every record whose instance is not
    running afterwards has an error that names it; and the result returns
    them all, being a success exactly when none was collected. *)
Theorem reconcile_processes_every_record env w :
  fault env (now w) SqlSelectAll = false ->
  let res := RecreateAllContainers env w in
  let w' := snd res in
  let evs := events_since w w' in
  map fst (List.filter (fun ev => is_inspect (fst ev)) evs) =
    map (fun r => DkInspect ("octoprint-" +:+ row_id r)) (containers w) /\
  (NoDup (ids (containers w)) ->
   forall r, r ∈ containers w ->
     let name := "octoprint-" +:+ row_id r in
     let path := "/dev/serial/by-id/" +:+ row_device r in
     (forall c, daemon w !! name = Some c ->
        (forall t, fault env t (DkInspect name) = false) ->
        (forall t, fault env t (DkStart name) = false) ->
        daemon w' !! name = Some (mkContainer (config c) true)) /\
     (forall usb, daemon w !! name = None ->
        (forall t, symlink env t path = Some usb) ->
        (forall t, fault env t (FsEvalSymlinks path) = false) ->
        (forall t cfg, fault env t (DkCreate name cfg) = false) ->
        (forall t, fault env t (DkStart name) = false) ->
        daemon w' !! name =
          Some (mkContainer (octoprint_config (row_id r) (pretty (row_port r)) usb) true))) /\
  exists errs,
    fst res = match errs with
              | [] => Ok tt
              | _ :: _ => Err (ErrorfAll "encountered errors while starting containers" errs)
              end /\
    length errs = length (List.filter failed_work evs) /\
    (forall e, In e errs -> exists r cause c, r ∈ containers w /\
       let name := "octoprint-" +:+ row_id r in
       let path := "/dev/serial/by-id/" +:+ row_device r in
       (e = Errorf ("failed to start existing container " +:+ name) cause /\
        c = DkStart name \/
        e = Errorf ("failed to create container " +:+ name) cause /\
        (c = FsEvalSymlinks path \/ (exists cfg, c = DkCreate name cfg) \/ c = DkStart name)) /\
       root_call cause = Some c /\
       In (c, false) evs) /\
    (forall r, r ∈ containers w ->
       let name := "octoprint-" +:+ row_id r in
       (exists inst, daemon w' !! name = Some inst /\ Running inst = true) \/
       (exists cause,
          In (Errorf ("failed to start existing container " +:+ name) cause) errs \/
          In (Errorf ("failed to create container " +:+ name) cause) errs)).
Proof.
  intros Hf. destruct (RecreateAllContainers_ok env w Hf) as (Hrun & Ht0 & _ & Hd0).
  cbv zeta in *. rewrite Hrun. cbn [fst snd].
  set (wq := log_call SqlSelectAll true w) in *.
  destruct (recreateLoop_pass env (containers w) [] wq)
    as (Ht & _ & _ & _ & _ & Hins & (errs & He & Hl & _)).
  destruct (recreateLoop_reports env (containers w) [] wq)
    as (Hrep & errs' & He' & Hfrom).
  cbn [app] in He, He'.
  assert (errs' = errs) as -> by congruence.
  set (w' := snd (recreateLoop env (containers w) [] wq)) in *.
  assert (events_since w w' = (SqlSelectAll, true) :: events_since wq w') as Hev.
  { apply events_since_app. rewrite Ht, Ht0. by rewrite <- app_assoc. }
  rewrite Hev. cbn [List.filter fst is_inspect failed_work snd negb andb].
  split; [exact Hins|]. split.
  - intros Hnd r Hr.
    destruct (recreateLoop_focus env (containers w) r [] wq Hnd Hr)
      as (errors0 & w0 & Hb & Ha & _).
    fold w' in Ha. rewrite Hd0 in Hb. rewrite Ha. split.
    + intros c Hc Hfi Hfs. apply recreateRow_starts; try done. by rewrite Hb.
    + intros usb Hc Hlink Hf1 Hf2 Hf3. apply recreateRow_heals; try done. by rewrite Hb.
  - exists errs. rewrite He.
    split; [reflexivity|]. split; [exact Hl|]. split.
    + intros e Hin. destruct (Hfrom e Hin) as (r & cause & c & Hr & Hcase & Hroot & Hc).
      exists r, cause, c. split; [done|]. split; [exact Hcase|]. split; [done|]. by right.
    + intros r Hr. specialize (Hrep r Hr). cbv zeta in Hrep. by rewrite He in Hrep.
Qed.

(** A pass in which the work on [A] fails (its device is unplugged): the
    failure is reported, and [B], which comes after [A], is started all the
    same. *)
Lemma reconcile_processes_every_record_witness :
  let res := RecreateAllContainers unplugged two_records in
  fst res =
    Err (ErrorfAll "encountered errors while starting containers"
           [Errorf "failed to create container octoprint-A"
              (Errorf "failed to resolve device symlink /dev/serial/by-id/usbA"
                 (External (FsEvalSymlinks "/dev/serial/by-id/usbA")))]) /\
  daemon (snd res) !! "octoprint-A" = None /\
  daemon (snd res) !! "octoprint-B" =
    Some (mkContainer (octoprint_config "B" "2001" "/dev/ttyUSB1") true).
Proof.
  split; [vm_compute; reflexivity|]. split; [vm_compute; reflexivity|].
  destruct (reconcile_processes_every_record unplugged two_records eq_refl)
    as (_ & Hwork & _).
  apply (proj1 (Hwork two_records_ids_distinct (mkRow "B" "usbB" 2001 None)
                  ltac:(right; left))
           (mkContainer (octoprint_config "B" "2001" "/dev/ttyUSB1") false)).
  - vm_compute. reflexivity.
  - intros t. reflexivity.
  - intros t. reflexivity.
Defined.

(** The scenario of the specification: [A] is created and started on port
    2000 with its device, [B] is started. *)
Example reconcile_scenario :
  let res := RecreateAllContainers quiet two_records in
  fst res = Ok tt /\
  events_since two_records (snd res) =
    [(SqlSelectAll, true);
     (DkInspect "octoprint-A", false);
     (FsEvalSymlinks "/dev/serial/by-id/usbA", true);
     (DkCreate "octoprint-A" (octoprint_config "A" "2000" "/dev/ttyUSB0"), true);
     (DkStart "octoprint-A", true);
     (DkInspect "octoprint-B", true);
     (DkStart "octoprint-B", true)].
Proof. split; reflexivity. Qed.

(** * Further properties *)

(** ** More on creation *)

(** What a successful creation has done. *)
Lemma CreateNewContainer_ok env device w name :
  fst (CreateNewContainer env device w) = Ok name ->
  let id := uuid_New env (now w) in
  let dir := "/mnt/storage/octoprint/" +:+ id in
  let w' := snd (CreateNewContainer env device w) in
  name = "octoprint-" +:+ id /\
  (id ∉ ids (containers w)) /\
  daemon w !! name = None /\
  dirs w' = {[dir]} ∪ dirs w /\
  exists port usb,
    fst (getNextAvailablePort env w) = Ok port /\
    containers w' = containers w ++ [mkRow id device port None] /\
    (exists t, symlink env t ("/dev/serial/by-id/" +:+ device) = Some usb) /\
    daemon w' =
      <[name := mkContainer (octoprint_config id (pretty port) usb) true]> (daemon w).
Proof.
  destruct w as [tbl ds dm tr].
  run_calls; intros Hok; try discriminate; simplify_eq.
  all: split; [reflexivity|].
  all: split; [by apply bool_decide_eq_false in Hdec|].
  all: split; [first [assumption|reflexivity]|].
  all: split; [reflexivity|].
  all: eexists _, _; split; [reflexivity|]; split; [reflexivity|].
  all: split; [eexists; eassumption|].
  all: by rewrite insert_insert_eq.
Qed.

(** X2.  A creation that fails, at whatever step, inserts no row, removes
    no directory and leaves every instance the daemon held as it was. *)
Theorem create_failure_inserts_nothing env device w :
  is_ok (fst (CreateNewContainer env device w)) = false ->
  let w' := snd (CreateNewContainer env device w) in
  containers w' = containers w /\
  dirs w ⊆ dirs w' /\
  (forall n c, daemon w !! n = Some c -> daemon w' !! n = Some c).
Proof.
  destruct w as [tbl ds dm tr].
  run_calls; intros Hfail; try discriminate.
  all: split; [reflexivity|].
  all: split; [set_solver|].
  all: intros n cc Hn; try assumption.
  all: rewrite ?insert_insert_eq.
  all: rewrite lookup_insert_ne; [assumption|congruence].
Qed.

(** A creation whose start fails, after two records. *)
Lemma create_failure_inserts_nothing_witness :
  containers (snd (CreateNewContainer (failing is_start) "usbA" two_records)) =
    containers two_records.
Proof.
  apply (create_failure_inserts_nothing (failing is_start) "usbA" two_records).
  reflexivity.
Defined.

(** X3.  When the INSERT of a creation fails, the creation fails and the
    store is unchanged, but nothing is rolled back: the instance is left
    running and the directory in place. *)
Theorem create_insert_failure_leaves_instance env device w port :
  let id := uuid_New env (now w) in
  let name := "octoprint-" +:+ id in
  let dir := "/mnt/storage/octoprint/" +:+ id in
  let res := CreateNewContainer env device w in
  In (SqlInsert id device port, false) (events_since w (snd res)) ->
  is_ok (fst res) = false /\
  containers (snd res) = containers w /\
  dir ∈ dirs (snd res) /\
  exists usb,
    daemon (snd res) =
      <[name := mkContainer (octoprint_config id (pretty port) usb) true]> (daemon w).
Proof.
  destruct w as [tbl ds dm tr].
  run_calls; norm_events; intros Hin; in_cases Hin.
  all: split; [reflexivity|]; split; [reflexivity|]; split; [set_solver|].
  all: eexists; rewrite insert_insert_eq; reflexivity.
Qed.

(** X1.  A creation that succeeds returns ["octoprint-" + id] for a fresh
    identity, has provisioned the directory of the identity, has appended
    one row (identity, device, allocated port, no name) and has left the
    daemon with one more instance, running, whose configuration carries the
    decimal port, the directory and the resolved device. *)
Theorem create_success env device w name :
  fst (CreateNewContainer env device w) = Ok name ->
  let id := uuid_New env (now w) in
  let dir := "/mnt/storage/octoprint/" +:+ id in
  let w' := snd (CreateNewContainer env device w) in
  name = "octoprint-" +:+ id /\
  (id ∉ ids (containers w)) /\
  daemon w !! name = None /\
  dirs w' = {[dir]} ∪ dirs w /\
  exists port usb,
    fst (getNextAvailablePort env w) = Ok port /\
    containers w' = containers w ++ [mkRow id device port None] /\
    (exists t, symlink env t ("/dev/serial/by-id/" +:+ device) = Some usb) /\
    daemon w' =
      <[name := mkContainer (octoprint_config id (pretty port) usb) true]> (daemon w).
Proof. apply CreateNewContainer_ok. Qed.

(** A creation after the records [A] and [B]. *)
Lemma create_success_witness :
  let w' := snd (CreateNewContainer quiet "usbC" two_records) in
  containers w' = containers two_records ++ [mkRow "id-0" "usbC" 2002 None] /\
  daemon w' !! "octoprint-id-0" =
    Some (mkContainer (octoprint_config "id-0" "2002" "/dev/ttyUSB0") true).
Proof.
  destruct (create_success quiet "usbC" two_records "octoprint-id-0" eq_refl)
    as (_ & _ & _ & _ & port & usb & Hport & Htbl & _ & Hdm).
  vm_compute in Hport. injection Hport as <-.
  split; [exact Htbl|]. vm_compute. reflexivity.
Defined.

(** A creation whose INSERT fails. *)
Lemma create_insert_failure_leaves_instance_witness :
  let res := CreateNewContainer (failing is_insert) "usbA" empty_world in
  is_ok (fst res) = false /\
  containers (snd res) = [] /\
  "/mnt/storage/octoprint/id-0" ∈ dirs (snd res).
Proof.
  destruct (create_insert_failure_leaves_instance
              (failing is_insert) "usbA" empty_world 2000)
    as (H1 & H2 & H3 & _).
  - vm_compute. find_event.
  - exact (conj H1 (conj H2 H3)).
Defined.

(** X4.  After a successful creation that was allocated port [p], the
    allocator returns [p + 1], as long as the stored ports are below the
    largest [int] minus one. *)
Theorem next_create_gets_next_port env env' device w name B :
  fst (CreateNewContainer env device w) = Ok name ->
  (forall p, p ∈ ports (containers w) -> GoInt.min_int <= p <= B) ->
  1999 <= B -> B + 1 < GoInt.max_int ->
  fault env' (now (snd (CreateNewContainer env device w))) SqlMaxPort = false ->
  exists port,
    fst (getNextAvailablePort env w) = Ok port /\
    fst (getNextAvailablePort env' (snd (CreateNewContainer env device w))) =
      Ok (port + 1).
Proof.
  intros Hok Hb HB HB' Hf.
  destruct (CreateNewContainer_ok env device w name Hok)
    as (_ & _ & _ & _ & port & usb & Hport & Htbl & _).
  destruct (next_port_fresh env w port B Hb ltac:(lia) Hport) as [Hlt Hr].
  exists port. split; [done|].
  rewrite getNextAvailablePort_ok by done. cbn [fst].
  assert (max_port (containers (snd (CreateNewContainer env device w))) = Some port)
    as ->.
  { apply max_port_is_max. rewrite Htbl. unfold is_max_port, ports.
    rewrite map_app. cbn [map row_port].
    split; [apply elem_of_app; right; by left|].
    intros p [Hp|Hp]%elem_of_app.
    - specialize (Hlt p Hp). lia.
    - apply list_elem_of_singleton in Hp. lia. }
  assert (GoInt.min_int <= port < GoInt.max_int) as Hrange by lia.
  by rewrite (add_one_below_max _ Hrange).
Qed.

(** The allocator before and after a third creation. *)
Lemma next_create_gets_next_port_witness :
  exists port,
    fst (getNextAvailablePort quiet two_records) = Ok port /\
    fst (getNextAvailablePort quiet (snd (CreateNewContainer quiet "usbC" two_records))) =
      Ok (port + 1).
Proof.
  apply (next_create_gets_next_port quiet quiet "usbC" two_records "octoprint-id-0" 2001).
  - reflexivity.
  - intros p Hp. unfold GoInt.min_int.
    apply elem_of_cons in Hp as [->|Hp]; [simpl; lia|].
    apply list_elem_of_singleton in Hp. subst. simpl. lia.
  - lia.
  - unfold GoInt.max_int. lia.
  - reflexivity.
Defined.

(** ** More on deletion *)

(** X7.  [/api/deletecontainer] always answers with the body
    [{"error": false, "id": id}]; its status is 500 exactly when the runtime
    removal, the record deletion or the directory removal failed (a failed
    stop alone does not count), and 200 otherwise, in which case the
    instance, the record and the directory of the identity are gone and
    nothing else has changed. *)
Theorem delete_response env id w :
  let name := "octoprint-" +:+ id in
  let dir := "/mnt/storage/octoprint/" +:+ id in
  let res := deletecontainer env (Some id) new_ctx w in
  let evs := events_since w (snd res) in
  body (fst res) = Some [("error", VBool false); ("id", VString id)] /\
  (status (fst res) = 200 \/ status (fst res) = 500) /\
  (status (fst res) = 500 <->
     In (DkRemove name, false) evs \/ In (SqlDelete id, false) evs \/
     In (FsRemoveAll dir, false) evs) /\
  (status (fst res) = 200 ->
     daemon (snd res) = delete name (daemon w) /\
     containers (snd res) = delete_rows id (containers w) /\
     dirs (snd res) = dirs w ∖ {[dir]}).
Proof.
  destruct w as [tbl ds dm tr].
  run_calls; norm_events.
  all: split; [reflexivity|].
  all: split; [cbn; tauto|].
  all: split; [cbn [status JSON Status new_ctx]; split;
               [intros Hs; try discriminate; cbn [In]; tauto
               |intros Hin; try reflexivity; exfalso;
                repeat (destruct Hin as [Hin|Hin]); in_cases Hin]|].
  all: cbn [status JSON Status new_ctx]; intros Hs; try discriminate.
  all: rewrite ?delete_insert_eq; done.
Qed.

(** X8.  What a deletion leaves when a step fails: after a failed removal
    the store and the directories are untouched and the instance is as it
    was, or stopped when the stop had succeeded; after a failed record
    deletion the instance is gone and the record and the directory remain;
    after a failed directory removal the instance and the record are gone
    and the directory remains. *)
Theorem delete_partial_failures env c id w :
  let name := "octoprint-" +:+ id in
  let dir := "/mnt/storage/octoprint/" +:+ id in
  let res := DeleteContainer env c id w in
  let evs := events_since w (snd res) in
  (In (DkRemove name, false) evs ->
     status (fst res) = 500 /\
     containers (snd res) = containers w /\ dirs (snd res) = dirs w /\
     (In (DkStop name, false) evs -> daemon (snd res) = daemon w) /\
     (In (DkStop name, true) evs ->
        exists inst, daemon w !! name = Some inst /\
          daemon (snd res) = <[name := mkContainer (config inst) false]> (daemon w))) /\
  (In (SqlDelete id, false) evs ->
     status (fst res) = 500 /\
     daemon (snd res) = delete name (daemon w) /\
     containers (snd res) = containers w /\ dirs (snd res) = dirs w) /\
  (In (FsRemoveAll dir, false) evs ->
     status (fst res) = 500 /\
     daemon (snd res) = delete name (daemon w) /\
     containers (snd res) = delete_rows id (containers w) /\
     dirs (snd res) = dirs w).
Proof.
  destruct w as [tbl ds dm tr].
  run_calls; norm_events.
  all: split; [intros Hin; in_cases Hin; repeat split; try reflexivity;
               intros Hs; in_cases Hs; try reflexivity;
               eexists; split; reflexivity|].
  all: split; [intros Hin; in_cases Hin; rewrite ?delete_insert_eq; done|].
  all: intros Hin; in_cases Hin; rewrite ?delete_insert_eq; done.
Qed.

(** X9.  Deleting an identity of which the daemon holds no instance fails:
    the stop and the removal both fail, the answer is 500 and the record,
    the daemon and the directories are left as they were. *)
Theorem delete_without_instance env c id w :
  let name := "octoprint-" +:+ id in
  daemon w !! name = None ->
  let res := DeleteContainer env c id w in
  events_since w (snd res) = [(DkStop name, false); (DkRemove name, false)] /\
  fst res = JSON [("error", VString "Failed to remove container")] (Status 500 c) /\
  containers (snd res) = containers w /\
  daemon (snd res) = daemon w /\
  dirs (snd res) = dirs w.
Proof.
  destruct w as [tbl ds dm tr].
  run_calls; norm_events; intros Hnone; try discriminate.
  all: done.
Qed.

(** ** Identities, and the round trip of creation and deletion *)

(** Deleting rows keeps identities distinct. *)
Lemma delete_rows_ids id rows :
  NoDup (ids rows) -> NoDup (ids (delete_rows id rows)).
Proof.
  unfold ids, delete_rows. induction rows as [|r rows IH]; [done|].
  cbn [map List.filter]. intros [Hfresh Hnd]%NoDup_cons.
  destruct (negb (bool_decide (row_id r = id))); [|by apply IH].
  cbn [map]. apply NoDup_cons. split; [|by apply IH].
  intros (r' & Heq & Hr')%list_elem_of_fmap. apply Hfresh.
  apply list_elem_of_fmap. exists r'. split; [done|].
  apply list_elem_of_In. apply list_elem_of_In in Hr'.
  by apply filter_In in Hr' as [Hr' _].
Qed.

(** Deleting an identity that no row has changes nothing. *)
Lemma delete_rows_absent id rows :
  id ∉ ids rows -> delete_rows id rows = rows.
Proof.
  unfold ids, delete_rows. induction rows as [|r rows IH]; [done|].
  cbn [map List.filter]. intros Hnotin.
  rewrite bool_decide_eq_false_2.
  - cbn [negb]. f_equal. apply IH. intros Hin. apply Hnotin. by right.
  - intros Heq. apply Hnotin. rewrite <- Heq. by left.
Qed.

(** The table after a rename request. *)
Lemma renamecontainer_table env req c w :
  containers (snd (renamecontainer env req c w)) = containers w \/
  exists name id,
    containers (snd (renamecontainer env req c w)) = rename_rows name id (containers w).
Proof.
  destruct w as [tbl ds dm tr]. destruct req as [[id name]|]; [|by left].
  run_calls; [by left|right; eauto].
Qed.

(** X5.  The identities of the store stay pairwise distinct under creation,
    deletion and renaming. *)
Theorem identities_stay_distinct env w :
  NoDup (ids (containers w)) ->
  (forall device, NoDup (ids (containers (snd (CreateNewContainer env device w))))) /\
  (forall c id, NoDup (ids (containers (snd (DeleteContainer env c id w))))) /\
  (forall req c, NoDup (ids (containers (snd (renamecontainer env req c w))))).
Proof.
  intros Hnd. split; [|split].
  - intros device.
    destruct (CreateNewContainer_table env device w) as [->|(port & _ & Hfresh & ->)];
      [done|].
    unfold ids in *. rewrite map_app. cbn [map row_id].
    apply NoDup_app. split; [done|]. split; [|apply NoDup_singleton].
    intros x Hx Hx'. apply list_elem_of_singleton in Hx'. by subst.
  - intros c id.
    destruct (DeleteContainer_table env c id w) as [(_ & _ & ->)|[_ ->]];
      [by apply delete_rows_ids|done].
  - intros req c.
    destruct (renamecontainer_table env req c w) as [->|(name & id & ->)]; [done|].
    by rewrite (proj1 (rename_rows_keeps name id (containers w))).
Qed.

(** A creation after two records. *)
Lemma identities_stay_distinct_witness :
  NoDup (ids (containers (snd (CreateNewContainer quiet "usbC" two_records)))).
Proof.
  apply (identities_stay_distinct quiet two_records two_records_ids_distinct).
Defined.

(** What a deletion whose last step succeeded has done. *)
Lemma DeleteContainer_done env c id w :
  let name := "octoprint-" +:+ id in
  let dir := "/mnt/storage/octoprint/" +:+ id in
  let res := DeleteContainer env c id w in
  In (FsRemoveAll dir, true) (events_since w (snd res)) ->
  fst res = c /\
  daemon (snd res) = delete name (daemon w) /\
  containers (snd res) = delete_rows id (containers w) /\
  dirs (snd res) = dirs w ∖ {[dir]}.
Proof.
  destruct w as [tbl ds dm tr].
  run_calls; norm_events; intros Hin; in_cases Hin.
  all: rewrite ?delete_insert_eq; done.
Qed.

(** X6.  A successful creation followed by the complete deletion of the
    created identity restores the record store and the daemon; the
    directories are those of before without the directory of the identity. *)
Theorem create_then_delete_restores env env' device w name c :
  fst (CreateNewContainer env device w) = Ok name ->
  let id := uuid_New env (now w) in
  let dir := "/mnt/storage/octoprint/" +:+ id in
  let w1 := snd (CreateNewContainer env device w) in
  let res := DeleteContainer env' c id w1 in
  In (FsRemoveAll dir, true) (events_since w1 (snd res)) ->
  containers (snd res) = containers w /\
  daemon (snd res) = daemon w /\
  dirs (snd res) = dirs w ∖ {[dir]} /\
  (dir ∉ dirs w -> dirs (snd res) = dirs w).
Proof.
  intros Hok id dir w1 res Hdone.
  destruct (CreateNewContainer_ok env device w name Hok)
    as (-> & Hfresh & Hnone & Hdirs & port & usb & _ & Htbl & _ & Hdm).
  destruct (DeleteContainer_done env' c id w1 Hdone) as (_ & Hd & Ht & Hs).
  fold res in Hd, Ht, Hs. fold w1 in Hdirs, Htbl, Hdm. fold id in Hfresh, Hnone, Htbl, Hdm.
  assert (dirs (snd res) = dirs w ∖ {[dir]}) as Hdirs'.
  { rewrite Hs, Hdirs. fold dir. apply set_eq. intros x.
    rewrite !elem_of_difference, elem_of_union. intuition. }
  split; [|split; [|split]].
  - rewrite Ht, Htbl. unfold delete_rows. rewrite List.filter_app.
    cbn [List.filter row_id]. rewrite bool_decide_eq_true_2 by done. cbn [negb].
    rewrite app_nil_r. by apply delete_rows_absent.
  - rewrite Hd, Hdm. by apply delete_insert_id.
  - done.
  - intros Hnotin. rewrite Hdirs'. apply set_eq. intros x.
    rewrite elem_of_difference, elem_of_singleton. split; [tauto|].
    intros Hx. split; [done|]. by intros ->.
Qed.

(** Creating and deleting a third record. *)
Lemma create_then_delete_restores_witness :
  let w1 := snd (CreateNewContainer quiet "usbC" two_records) in
  let res := DeleteContainer quiet new_ctx "id-0" w1 in
  containers (snd res) = containers two_records /\
  daemon (snd res) = daemon two_records.
Proof.
  destruct (create_then_delete_restores quiet quiet "usbC" two_records
              "octoprint-id-0" new_ctx eq_refl) as (H1 & H2 & _).
  - vm_compute. find_event.
  - exact (conj H1 H2).
Defined.

(** The deletion of [A] with its instance running. *)
Lemma delete_response_witness :
  let res := deletecontainer quiet (Some "A") new_ctx one_running in
  daemon (snd res) = delete "octoprint-A" (daemon one_running) /\
  containers (snd res) = delete_rows "A" (containers one_running) /\
  dirs (snd res) = dirs one_running ∖ {["/mnt/storage/octoprint/A"]}.
Proof.
  apply (proj2 (proj2 (proj2 (delete_response quiet "A" one_running)))).
  reflexivity.
Defined.

(** A deletion whose removal fails. *)
Lemma delete_partial_failures_witness :
  let res := DeleteContainer (failing is_remove) new_ctx "A" one_running in
  status (fst res) = 500 /\ containers (snd res) = containers one_running.
Proof.
  destruct (proj1 (delete_partial_failures (failing is_remove) new_ctx "A" one_running))
    as (H1 & H2 & _).
  - vm_compute. find_event.
  - exact (conj H1 H2).
Defined.

(** Deleting [A], whose instance is missing. *)
Lemma delete_without_instance_witness :
  let res := DeleteContainer quiet new_ctx "A" two_records in
  status (fst res) = 500 /\ containers (snd res) = containers two_records.
Proof.
  destruct (delete_without_instance quiet new_ctx "A" two_records)
    as (_ & H1 & H2 & _).
  - vm_compute. reflexivity.
  - split; [by rewrite H1|exact H2].
Defined.

(** X22.  When the start of a creation fails, the creation fails and the
    store is unchanged, and the instance just created stays in the daemon,
    stopped. *)
Theorem create_start_failure_leaves_instance env device w :
  let id := uuid_New env (now w) in
  let name := "octoprint-" +:+ id in
  let res := CreateNewContainer env device w in
  In (DkStart name, false) (events_since w (snd res)) ->
  is_ok (fst res) = false /\
  containers (snd res) = containers w /\
  daemon w !! name = None /\
  exists cfg,
    In (DkCreate name cfg, true) (events_since w (snd res)) /\
    daemon (snd res) = <[name := mkContainer cfg false]> (daemon w).
Proof.
  destruct w as [tbl ds dm tr].
  run_calls; norm_events; intros Hin; in_cases Hin.
  all: split; [reflexivity|]; split; [reflexivity|]; split; [done|].
  all: eexists; split; [solve [find_event]|reflexivity].
Qed.

(** A creation whose start fails. *)
Lemma create_start_failure_leaves_instance_witness :
  let res := CreateNewContainer (failing is_start) "usbA" empty_world in
  is_ok (fst res) = false /\ containers (snd res) = [].
Proof.
  destruct (create_start_failure_leaves_instance (failing is_start) "usbA" empty_world)
    as (H1 & H2 & _).
  - vm_compute. find_event.
  - exact (conj H1 H2).
Defined.

(** ** Listing after a creation or a renaming *)

(** A listing whose query succeeds shows every record, in store order. *)
Lemma getcontainers_entries env c w :
  fault env (now w) SqlSelectList = false ->
  listed_containers (fst (getcontainers env c w)) = map info_of (containers w).
Proof.
  intros Hf. unfold getcontainers, QueryList, perform. rewrite Hf.
  unfold listed_containers. cbn.
  case_bool_decide; [discriminate|]. case_bool_decide; [|done]. reflexivity.
Qed.

(** X10.  After a successful creation, [list()] shows the records of before
    followed by the new one: its identity, the allocated port, the device
    and no name. *)
Theorem created_record_is_listed env env' device w name :
  fst (CreateNewContainer env device w) = Ok name ->
  fault env' (now (snd (CreateNewContainer env device w))) SqlSelectList = false ->
  exists port,
    fst (getNextAvailablePort env w) = Ok port /\
    listed_containers
      (fst (getcontainers env' new_ctx (snd (CreateNewContainer env device w)))) =
      map info_of (containers w) ++
      [{| ID := uuid_New env (now w); Port := port; Name := None; Device := device |}].
Proof.
  intros Hok Hf.
  destruct (CreateNewContainer_ok env device w name Hok)
    as (_ & _ & _ & _ & port & usb & Hport & Htbl & _).
  exists port. split; [done|].
  rewrite getcontainers_entries by done. by rewrite Htbl, map_app.
Qed.

(** Listing after a third creation. *)
Lemma created_record_is_listed_witness :
  exists port,
    fst (getNextAvailablePort quiet two_records) = Ok port /\
    listed_containers
      (fst (getcontainers quiet new_ctx (snd (CreateNewContainer quiet "usbC" two_records)))) =
      map info_of (containers two_records) ++
      [{| ID := "id-0"; Port := port; Name := None; Device := "usbC" |}].
Proof.
  apply (created_record_is_listed quiet quiet "usbC" two_records "octoprint-id-0");
    reflexivity.
Defined.

(** Renaming an identity that no row has changes nothing. *)
Lemma rename_rows_absent name id rows :
  id ∉ ids rows -> rename_rows name id rows = rows.
Proof.
  unfold ids, rename_rows. induction rows as [|r rows IH]; [done|].
  cbn [map]. intros Hnotin.
  rewrite bool_decide_eq_false_2.
  - f_equal. apply IH. intros Hin. apply Hnotin. by right.
  - intros Heq. apply Hnotin. rewrite <- Heq. by left.
Qed.

(** X11.  Renaming an identity that has no record answers with success and
    leaves the record store as it was. *)
Theorem rename_unknown_identity env id name c w :
  id ∉ ids (containers w) ->
  fault env (now w) (SqlUpdateName name id) = false ->
  let res := renamecontainer env (Some (id, name)) c w in
  fst res = JSON [("error", VBool false); ("id", VString id); ("name", VString name)] c /\
  containers (snd res) = containers w.
Proof.
  intros Hnotin Hf. unfold renamecontainer, ExecUpdateName, perform.
  rewrite Hf. cbn. split; [done|]. by apply rename_rows_absent.
Qed.

(** Renaming an unknown identity. *)
Lemma rename_unknown_identity_witness :
  let res := renamecontainer quiet (Some ("ghost", "Printer-9")) new_ctx two_records in
  status (fst res) = 200 /\ containers (snd res) = containers two_records.
Proof.
  destruct (rename_unknown_identity quiet "ghost" "Printer-9" new_ctx two_records)
    as [H1 H2].
  - apply (bool_decide_unpack _). vm_compute. exact I.
  - reflexivity.
  - split; [by rewrite H1|exact H2].
Defined.

(** X12.  After a successful renaming, [list()] shows the new name for the
    records of the identity and every other entry as the store had it. *)
Theorem renamed_record_is_listed env env' id name c w :
  let w1 := snd (renamecontainer env (Some (id, name)) c w) in
  In (SqlUpdateName name id, true) (events_since w w1) ->
  fault env' (now w1) SqlSelectList = false ->
  listed_containers (fst (getcontainers env' new_ctx w1)) =
    map (fun r => if bool_decide (row_id r = id)
                  then {| ID := row_id r; Port := row_port r;
                          Name := Some name; Device := row_device r |}
                  else info_of r) (containers w).
Proof.
  intros w1 Hin Hf. rewrite getcontainers_entries by done.
  assert (containers w1 = rename_rows name id (containers w)) as ->.
  { subst w1. clear Hf. revert Hin. destruct w as [tbl ds dm tr].
    run_calls; norm_events; intros Hin; in_cases Hin. }
  unfold rename_rows. rewrite map_map. apply map_ext. intros r.
  by case_bool_decide.
Qed.

(** Listing after renaming [A]. *)
Lemma renamed_record_is_listed_witness :
  listed_containers
    (fst (getcontainers quiet new_ctx
            (snd (renamecontainer quiet (Some ("A", "Printer-1")) new_ctx two_records)))) =
  [{| ID := "A"; Port := 2000; Name := Some "Printer-1"; Device := "usbA" |};
   {| ID := "B"; Port := 2001; Name := None; Device := "usbB" |}].
Proof.
  apply (renamed_record_is_listed quiet quiet "A" "Printer-1" new_ctx two_records).
  - vm_compute. find_event.
  - reflexivity.
Defined.

(** ** More on restart *)

(** The answer of a restart and the status it records. *)
Lemma restartcontainer_outcome env configdir id st w :
  let res := restartcontainer env configdir (Some id) st new_ctx w in
  (status (fst (fst res)) = 200 /\ snd (fst res) = <[id := true]> st) \/
  (status (fst (fst res)) = 500 /\ snd (fst res) = <[id := false]> st).
Proof.
  destruct w as [tbl ds dm tr].
  run_calls.
  all: first [left; split; reflexivity | right; split; reflexivity].
Qed.

(** X13.  [/api/restartcontainer] of the later revision answers 200 or 500
    and sets [containerStatus[id]] to whether it answered 200; when the
    inspection found the instance and the answer is 200, the instance is
    running with its configuration unchanged. *)
Theorem restart_updates_status_cache env configdir id st w :
  let name := "octoprint-" +:+ id in
  let res := restartcontainer env configdir (Some id) st new_ctx w in
  ((status (fst (fst res)) = 200 /\ snd (fst res) = <[id := true]> st) \/
   (status (fst (fst res)) = 500 /\ snd (fst res) = <[id := false]> st)) /\
  (In (DkInspect name, true) (events_since w (snd res)) ->
   status (fst (fst res)) = 200 ->
   exists inst, daemon w !! name = Some inst /\
     daemon (snd res) = <[name := mkContainer (config inst) true]> (daemon w)).
Proof.
  split; [apply restartcontainer_outcome|].
  destruct w as [tbl ds dm tr].
  run_calls; norm_events; intros Hin Hs; in_cases Hin; try discriminate.
  eexists; split; reflexivity.
Qed.

(** X14.  [/api/restartcontainer] of the earlier revision issues the one
    [ContainerRestart] and nothing else, never touching the store or the
    directories: it answers with success and the instance is running, or
    with 500 and the daemon unchanged, which is the case whenever the
    daemon holds no instance of the identity. *)
Theorem restart_v1_outcome env id c w :
  let name := "octoprint-" +:+ id in
  let res := restartcontainer_v1 env (Some id) c w in
  containers (snd res) = containers w /\
  dirs (snd res) = dirs w /\
  (daemon w !! name = None -> status (fst res) = 500) /\
  ((fst res = JSON [("error", VBool false); ("id", VString id)] c /\
    events_since w (snd res) = [(DkRestart name, true)] /\
    exists inst, daemon w !! name = Some inst /\
      daemon (snd res) = <[name := mkContainer (config inst) true]> (daemon w)) \/
   (fst res = JSON [("error", VString "Failed to restart container")] (Status 500 c) /\
    events_since w (snd res) = [(DkRestart name, false)] /\
    daemon (snd res) = daemon w)).
Proof.
  destruct w as [tbl ds dm tr].
  run_calls; norm_events.
  all: split; [reflexivity|]; split; [reflexivity|].
  all: split; [intros Hnone; first [discriminate|reflexivity]|].
  all: first [ right; repeat split; reflexivity
             | left; split; [reflexivity|]; split; [reflexivity|];
               eexists; split; reflexivity ].
Qed.

(** Restarting [A], whose instance is missing. *)
Lemma restart_v1_outcome_witness :
  status (fst (restartcontainer_v1 quiet (Some "A") new_ctx two_records)) = 500.
Proof.
  apply (proj1 (proj2 (proj2 (restart_v1_outcome quiet "A" new_ctx two_records)))).
  vm_compute. reflexivity.
Defined.

(** Restarting [B], whose instance is stopped. *)
Lemma restart_updates_status_cache_witness :
  let res := restartcontainer quiet "/config" (Some "B") ∅ new_ctx two_records in
  status (fst (fst res)) = 200 /\ snd (fst res) = {["B" := true]}.
Proof.
  destruct (proj1 (restart_updates_status_cache quiet "/config" "B" ∅ two_records))
    as [H|(H1 & _)].
  - exact H.
  - vm_compute in H1. discriminate.
Defined.

(** ** More on reconciliation *)

(** X15.  [reconcile_all] leaves the record store and the directories as
    they were; the only calls it issues are the query, inspections, symlink
    resolutions, creations and starts; every instance the daemon held is
    still there with its configuration, and the running ones are
    untouched. *)
Theorem reconcile_only_adds_and_starts env w :
  let res := RecreateAllContainers env w in
  containers (snd res) = containers w /\
  dirs (snd res) = dirs w /\
  (forall ev, In ev (events_since w (snd res)) -> is_reconcile_call (fst ev) = true) /\
  (forall n inst, daemon w !! n = Some inst ->
     exists inst', daemon (snd res) !! n = Some inst' /\
       config inst' = config inst /\
       (Running inst = true -> inst' = inst)).
Proof.
  destruct (fault env (now w) SqlSelectAll) eqn:Hf.
  - unfold RecreateAllContainers, bind, wrapErr, QueryAll, perform. rewrite Hf.
    cbn [snd]. destruct w as [tbl ds dm tr]. norm_events.
    split; [done|]. split; [done|]. split; [intros ev Hin; in_cases Hin; done|eauto].
  - destruct (RecreateAllContainers_ok env w Hf) as (Hrun & Ht0 & Hc0 & Hd0).
    cbv zeta in *. rewrite Hrun. cbn [snd].
    set (w0 := log_call SqlSelectAll true w) in *.
    destruct (recreateLoop_pass env (containers w) [] w0) as (Ht & Hc & _).
    destruct (recreateLoop_keeps env (containers w) [] w0) as (Hd & Hcalls & Hk & _).
    set (w' := snd (recreateLoop env (containers w) [] w0)) in *.
    assert (events_since w w' = (SqlSelectAll, true) :: events_since w0 w') as Hev.
    { apply events_since_app. rewrite Ht, Ht0. by rewrite <- app_assoc. }
    split; [congruence|]. split; [by rewrite Hd|]. split.
    + intros ev Hin. rewrite Hev in Hin. destruct Hin as [<-|Hin]; [done|eauto].
    + intros n inst Hn. apply Hk. by rewrite Hd0.
Qed.

(** A pass that returns no error has every instance running. *)
Lemma RecreateAllContainers_converged env w :
  fst (RecreateAllContainers env w) = Ok tt ->
  fault env (now w) SqlSelectAll = false /\
  containers (snd (RecreateAllContainers env w)) = containers w /\
  forall r, r ∈ containers w ->
    exists inst,
      daemon (snd (RecreateAllContainers env w)) !! ("octoprint-" +:+ row_id r) = Some inst /\
      Running inst = true.
Proof.
  intros Hok. destruct (fault env (now w) SqlSelectAll) eqn:Hf.
  { revert Hok. unfold RecreateAllContainers, bind, wrapErr, QueryAll, perform.
    by rewrite Hf. }
  split; [done|].
  destruct (RecreateAllContainers_ok env w Hf) as (Hrun & _ & Hc0 & _).
  cbv zeta in *. rewrite Hrun in *. cbn [fst snd] in *.
  set (w0 := log_call SqlSelectAll true w) in *.
  destruct (recreateLoop_pass env (containers w) [] w0) as (_ & Hc & _).
  destruct (recreateLoop_keeps env (containers w) [] w0) as (_ & _ & _ & Hall).
  split; [congruence|]. apply Hall.
  by destruct (fst (recreateLoop env (containers w) [] w0)).
Qed.

(** X16.  When [reconcile_all] returns no error, every persisted record has
    its instance in the daemon, running. *)
Theorem reconcile_success_means_running env w :
  fst (RecreateAllContainers env w) = Ok tt ->
  forall r, r ∈ containers w ->
    exists inst,
      daemon (snd (RecreateAllContainers env w)) !! ("octoprint-" +:+ row_id r) = Some inst /\
      Running inst = true.
Proof. intros Hok. by apply RecreateAllContainers_converged. Qed.

(** With every instance running and the inspections answering, the loop
    only inspects. *)
Lemma recreateLoop_steady env rows errors w :
  (forall r, r ∈ rows ->
     exists inst, daemon w !! ("octoprint-" +:+ row_id r) = Some inst /\
                  Running inst = true) ->
  (forall t n, fault env t (DkInspect n) = false) ->
  recreateLoop env rows errors w =
    (errors,
     mkWorld (containers w) (dirs w) (daemon w)
       (trace w ++ map (fun r => (DkInspect ("octoprint-" +:+ row_id r), true)) rows)).
Proof.
  intros Hall Hf. revert w Hall. induction rows as [|r rows IH]; intros w Hall.
  - cbn [recreateLoop map]. rewrite app_nil_r. by destruct w.
  - destruct (Hall r) as (inst & Hinst & Hrun); [by left|].
    assert (recreateRow env r errors w
            = (errors, log_call (DkInspect ("octoprint-" +:+ row_id r)) true w)) as Hrow.
    { unfold recreateRow, ContainerInspect, perform. by rewrite Hf, Hinst, Hrun. }
    rewrite recreateLoop_cons, Hrow. cbn [fst snd].
    rewrite IH.
    + unfold log_call. cbn [containers dirs daemon trace map].
      by rewrite <- app_assoc.
    + intros r' Hr'. unfold log_call. cbn [daemon]. apply Hall. by right.
Qed.

(** X17.  After a pass that returned no error, a second pass whose query
    and inspections answer returns no error, only inspects each record's
    instance and leaves the daemon as it was. *)
Theorem reconcile_twice env env' w :
  fst (RecreateAllContainers env w) = Ok tt ->
  let w1 := snd (RecreateAllContainers env w) in
  fault env' (now w1) SqlSelectAll = false ->
  (forall t n, fault env' t (DkInspect n) = false) ->
  let res := RecreateAllContainers env' w1 in
  fst res = Ok tt /\
  daemon (snd res) = daemon w1 /\
  events_since w1 (snd res) =
    (SqlSelectAll, true) ::
    map (fun r => (DkInspect ("octoprint-" +:+ row_id r), true)) (containers w).
Proof.
  intros Hok w1 Hsel Hins.
  destruct (RecreateAllContainers_converged env w Hok) as (_ & Htbl & Hall).
  fold w1 in Htbl, Hall.
  destruct (RecreateAllContainers_ok env' w1 Hsel) as (Hrun & Ht0 & Hc0 & Hd0).
  cbv zeta in *. rewrite Hrun.
  rewrite recreateLoop_steady;
    [|intros r Hr; rewrite Hd0; apply Hall; by rewrite <- Htbl|exact Hins].
  cbn [fst snd daemon]. split; [done|]. split; [done|].
  apply events_since_app. cbn [trace]. rewrite Ht0, Htbl.
  by rewrite <- app_assoc.
Qed.

(** Two passes over [two_records]. *)
Lemma reconcile_twice_witness :
  let w1 := snd (RecreateAllContainers quiet two_records) in
  let res := RecreateAllContainers quiet w1 in
  fst res = Ok tt /\
  daemon (snd res) = daemon w1 /\
  events_since w1 (snd res) =
    [(SqlSelectAll, true); (DkInspect "octoprint-A", true); (DkInspect "octoprint-B", true)].
Proof.
  apply (reconcile_twice quiet quiet two_records); [reflexivity|reflexivity|].
  intros t n. reflexivity.
Defined.

(** The instance of [A] after a pass. *)
Lemma reconcile_success_means_running_witness :
  exists inst,
    daemon (snd (RecreateAllContainers quiet two_records)) !! "octoprint-A" = Some inst /\
    Running inst = true.
Proof.
  apply (reconcile_success_means_running quiet two_records eq_refl
           (mkRow "A" "usbA" 2000 None)).
  by left.
Defined.

(** A pass over a running instance with every device unplugged. *)
Lemma reconcile_only_adds_and_starts_witness :
  exists inst',
    daemon (snd (RecreateAllContainers unplugged one_running)) !! "octoprint-A" = Some inst' /\
    config inst' = octoprint_config "A" "2000" "/dev/ttyUSB0" /\
    (true = true ->
     inst' = mkContainer (octoprint_config "A" "2000" "/dev/ttyUSB0") true).
Proof.
  apply (proj2 (proj2 (proj2 (reconcile_only_adds_and_starts unplugged one_running)))
           "octoprint-A" (mkContainer (octoprint_config "A" "2000" "/dev/ttyUSB0") true)).
  vm_compute. reflexivity.
Defined.

(** X18.  [reconcile_all] issues no call for a name that is the instance
    name of no record, and leaves such an instance as it was. *)
Theorem reconcile_ignores_unrecorded_instances env w name :
  (forall r, r ∈ containers w -> name <> "octoprint-" +:+ row_id r) ->
  let res := RecreateAllContainers env w in
  daemon (snd res) !! name = daemon w !! name /\
  addressed_to name (events_since w (snd res)) = [].
Proof.
  intros Hfree. destruct (fault env (now w) SqlSelectAll) eqn:Hf.
  - unfold RecreateAllContainers, bind, wrapErr, QueryAll, perform. rewrite Hf.
    cbn [snd]. destruct w as [tbl ds dm tr]. norm_events.
    split; [done|]. unfold addressed_to. cbn [List.filter call_target fst].
    by rewrite bool_decide_eq_false_2 by discriminate.
  - destruct (RecreateAllContainers_ok env w Hf) as (Hrun & Ht0 & Hc0 & Hd0).
    cbv zeta in *. rewrite Hrun. cbn [snd].
    set (w0 := log_call SqlSelectAll true w) in *.
    destruct (recreateLoop_pass env (containers w) [] w0) as (Ht & _ & Hd & Htg & _).
    set (w' := snd (recreateLoop env (containers w) [] w0)) in *.
    assert (events_since w w' = (SqlSelectAll, true) :: events_since w0 w') as Hev.
    { apply events_since_app. rewrite Ht, Ht0. by rewrite <- app_assoc. }
    split; [rewrite <- Hd0; by apply Hd|].
    apply addressed_to_none. intros ev Hin Htarget. rewrite Hev in Hin.
    destruct Hin as [<-|Hin]; [discriminate|].
    destruct (Htg ev Hin) as [H|(r & Hr & H)]; [congruence|].
    apply (Hfree r Hr). congruence.
Qed.

(** A pass over an instance without a record. *)
Lemma reconcile_ignores_unrecorded_instances_witness :
  let res := RecreateAllContainers quiet orphan_instance in
  daemon (snd res) !! "octoprint-ghost" = daemon orphan_instance !! "octoprint-ghost" /\
  addressed_to "octoprint-ghost" (events_since orphan_instance (snd res)) = [].
Proof.
  apply (reconcile_ignores_unrecorded_instances quiet orphan_instance "octoprint-ghost").
  intros r Hr. inversion Hr.
Defined.

(** X19.  For a record of a store with distinct identities whose instance
    is missing, when the query, the symlink resolution, the creation and the
    start of that instance do not fail, [reconcile_all] leaves a running
    instance with the configuration a creation gives it: the persisted port,
    the directory of the identity and the resolved device. *)
Theorem reconcile_heals_missing_instance env w r usb :
  let name := "octoprint-" +:+ row_id r in
  let path := "/dev/serial/by-id/" +:+ row_device r in
  fault env (now w) SqlSelectAll = false ->
  NoDup (ids (containers w)) ->
  r ∈ containers w ->
  daemon w !! name = None ->
  (forall t, symlink env t path = Some usb) ->
  (forall t, fault env t (FsEvalSymlinks path) = false) ->
  (forall t cfg, fault env t (DkCreate name cfg) = false) ->
  (forall t, fault env t (DkStart name) = false) ->
  daemon (snd (RecreateAllContainers env w)) !! name =
    Some (mkContainer (octoprint_config (row_id r) (pretty (row_port r)) usb) true).
Proof.
  intros name path Hf Hnd Hr Hnone Hlink Hf1 Hf2 Hf3.
  destruct (RecreateAllContainers_ok env w Hf) as (Hrun & _ & _ & Hd0).
  cbv zeta in *. rewrite Hrun. cbn [snd].
  destruct (recreateLoop_focus env (containers w) r []
              (log_call SqlSelectAll true w) Hnd Hr)
    as (errors1 & w1 & Hb & Ha & _).
  fold name in Hb, Ha. rewrite Ha.
  apply recreateRow_heals; try done. fold name. by rewrite Hb, Hd0.
Qed.

(** The missing instance of [A] is recreated. *)
Lemma reconcile_heals_missing_instance_witness :
  daemon (snd (RecreateAllContainers quiet two_records)) !! "octoprint-A" =
    Some (mkContainer (octoprint_config "A" "2000" "/dev/ttyUSB0") true).
Proof.
  apply (reconcile_heals_missing_instance quiet two_records
           (mkRow "A" "usbA" 2000 None) "/dev/ttyUSB0" eq_refl two_records_ids_distinct).
  - by left.
  - vm_compute. reflexivity.
  - intros t. reflexivity.
  - intros t. reflexivity.
  - intros t cfg. reflexivity.
  - intros t. reflexivity.
Defined.

(** ** Listing the USB devices *)

(** [usedDevices] holds [true] for the devices of the records and nothing else. *)
Lemma usedDevices_of_lookup rows d :
  usedDevices_of rows !! d =
    if bool_decide (d ∈ map row_device rows) then Some true else None.
Proof.
  unfold usedDevices_of.
  assert (forall m : gmap string bool,
            foldl (fun u r => <[row_device r := true]> u) m rows !! d =
                    if bool_decide (d ∈ map row_device rows) then Some true else m !! d)
    as H.
  { induction rows as [|r rows IH]; intros m; cbn [foldl map].
    - rewrite bool_decide_eq_false_2; [done|]. intros Hin. inversion Hin.
    - rewrite IH. destruct (decide (d ∈ map row_device rows)) as [Hin|Hnin].
      + rewrite !bool_decide_eq_true_2; [done| by right |done].
      + rewrite (bool_decide_eq_false_2 _ Hnin).
        destruct (decide (row_device r = d)) as [<-|Hne].
        * rewrite lookup_insert_eq, bool_decide_eq_true_2; [done|by left].
        * rewrite lookup_insert_ne by done.
          rewrite bool_decide_eq_false_2; [done|].
          intros [?|?]%elem_of_cons; congruence. }
  rewrite H. by rewrite lookup_empty.
Qed.

(** The [devices] slice: one entry per directory entry that is no directory. *)
Lemma devices_of_map used files :
  devices_of used files =
    map (fun file => mkDeviceInfo (entry_Name file)
                       (default false (used !! entry_Name file)))
        (List.filter (fun file => negb (entry_IsDir file)) files).
Proof.
  unfold devices_of.
  assert (forall acc,
            foldl (fun devices file =>
                     if negb (entry_IsDir file)
                     then devices ++ [mkDeviceInfo (entry_Name file)
                                        (default false (used !! entry_Name file))]
                     else devices) acc files =
            acc ++ map (fun file => mkDeviceInfo (entry_Name file)
                                      (default false (used !! entry_Name file)))
                       (List.filter (fun file => negb (entry_IsDir file)) files)) as H.
  { induction files as [|f files IH]; intros acc; cbn [foldl List.filter map].
    - by rewrite app_nil_r.
    - rewrite IH. destruct (negb (entry_IsDir f)); [|done].
      cbn [map]. by rewrite <- app_assoc. }
  by rewrite H.
Qed.

(** X20.  When [/dev/serial] is not reported missing, the directory listing
    and the query succeed, [/api/listusb] answers 200 with one entry per
    directory entry that is not a directory, in listing order, and marks an
    entry in use exactly when some record is bound to that device. *)
Theorem listusb_marks_bound_devices h w files :
  stat_serial h <> StatNotExist ->
  readdir_by_id h = Some files ->
  query_devices_ok h = true ->
  usb_status (listusb h w) = 200 /\
  map device_Name (listed_devices (listusb h w)) =
    map entry_Name (List.filter (fun file => negb (entry_IsDir file)) files) /\
  forall d, In d (listed_devices (listusb h w)) ->
    (InUse d = true <-> device_Name d ∈ map row_device (containers w)).
Proof.
  intros Hstat Hdir Hq. unfold listusb. rewrite Hdir, Hq.
  destruct (stat_serial h); [|done|]; cbn [usb_status listed_devices usb_body].
  all: rewrite devices_of_map; split; [done|]; split;
       [rewrite map_map; reflexivity|].
  all: intros d (file & <- & _)%in_map_iff; cbn [InUse device_Name].
  all: rewrite usedDevices_of_lookup; case_bool_decide; cbn; split; done.
Qed.

(** A listing of two devices and a directory. *)
Lemma listusb_marks_bound_devices_witness :
  let res := listusb (mkHost StatFound
                        (Some [mkDirEntry "usbA" false; mkDirEntry "hub" true;
                               mkDirEntry "usbZ" false]) true) two_records in
  usb_status res = 200 /\
  map device_Name (listed_devices res) = ["usbA"; "usbZ"].
Proof.
  destruct (listusb_marks_bound_devices
              (mkHost StatFound
                 (Some [mkDirEntry "usbA" false; mkDirEntry "hub" true;
                        mkDirEntry "usbZ" false]) true) two_records _
              ltac:(discriminate) eq_refl eq_refl) as (H1 & H2 & _).
  exact (conj H1 H2).
Defined.

(** ** The status a listing shows *)

(** The later listing shows every record with the status the cache holds. *)
Lemma getcontainers_status_entries env st w :
  fault env (now w) SqlSelectList = false ->
  listed_statuses (fst (getcontainers_status env st w)) =
    map (fun r => {| cs_ID := row_id r; cs_Port := row_port r;
                     cs_Name := row_name r; cs_Device := row_device r;
                     cs_Status := default false (st !! row_id r) |}) (containers w).
Proof.
  intros Hf. unfold getcontainers_status, QueryList, perform. by rewrite Hf.
Qed.

(** X21.  After [/api/restartcontainer] of the later revision, the later
    [/api/getcontainers] lists every record; the entries of the restarted
    identity show the status [true] exactly when the restart answered 200,
    and every other entry shows what the cache held before, [false] when it
    held nothing. *)
Theorem listed_status_follows_restart env env' configdir id st w :
  let res := restartcontainer env configdir (Some id) st new_ctx w in
  let listing := getcontainers_status env' (snd (fst res)) (snd res) in
  fault env' (now (snd res)) SqlSelectList = false ->
  map cs_ID (listed_statuses (fst listing)) = ids (containers (snd res)) /\
  forall e, In e (listed_statuses (fst listing)) ->
    (cs_ID e = id -> (cs_Status e = true <-> status (fst (fst res)) = 200)) /\
    (cs_ID e <> id -> cs_Status e = default false (st !! cs_ID e)).
Proof.
  intros res listing Hf. subst listing.
  rewrite getcontainers_status_entries by done.
  split; [by rewrite map_map|].
  intros e (r & <- & _)%in_map_iff. cbn [cs_ID cs_Status].
  destruct (restartcontainer_outcome env configdir id st w)
    as [(Hs & Hst)|(Hs & Hst)]; fold res in Hs, Hst; rewrite Hs, Hst.
  - split.
    + intros ->. by rewrite lookup_insert_eq.
    + intros Hne. by rewrite lookup_insert_ne.
  - split.
    + intros ->. rewrite lookup_insert_eq. cbn. split; discriminate.
    + intros Hne. by rewrite lookup_insert_ne.
Qed.

(** Listing after restarting [B]. *)
Lemma listed_status_follows_restart_witness :
  let res := restartcontainer quiet "/config" (Some "B") ∅ new_ctx two_records in
  map cs_ID (listed_statuses
               (fst (getcontainers_status quiet (snd (fst res)) (snd res)))) =
    ["A"; "B"].
Proof.
  apply (proj1 (listed_status_follows_restart quiet quiet "/config" "B" ∅ two_records
                  eq_refl)).
Defined.
